(** * Order intake pipeline of the OpenPhone order automation service

  A shallow embedding of [server.js]: the [OrderAutomationService] class
  (message fetch, classification, the two sinks and the [processMessages]
  loop) together with the fragment of JavaScript semantics its control flow
  depends on (property access, truthiness, string conversion,
  [Array.prototype.join], exceptions and [try]/[catch]).

  Everything outside the process (the HTTP endpoints, the clock and the
  locale library) is an oracle collected in a [World]; console output and
  outgoing calls are recorded in a trace of [Event]s.

  A method is modelled running alone, from its first statement to its
  return: two invocations of [processMessages] that overlap in time are
  outside this development. *)

From stdpp Require Import gmap strings list.
From Stdlib Require Import ZArith Ascii String.

Set Warnings "-register-all".

Local Open Scope string_scope.
Local Open Scope list_scope.

(** ** JavaScript values *)

Module Js.

(** The values [JSON.parse] can produce, plus [undefined] (what reading a
    missing property gives). A number is carried as the decimal text
    [Number.prototype.toString] prints for it: that text identifies the
    number, and it is all the service ever observes of one. *)
Inductive Value : Type :=
| Undefined
| Null
| Bool (b : bool)
| Num (repr : string)
| Str (s : string)
| Arr (items : list Value)
| Obj (props : list (string * Value)).

Inductive Error : Type :=
| TypeError
  (* a property of [null] or [undefined] is read, a value that is not a
     function is called, or an object cannot be converted to a primitive *)
| SyntaxError
  (* [JSON.parse] rejects its input *)
| Rejected
  (* an awaited request fails *)
| Failure
  (* [throw new Error(...)] *).

(** A computation that may raise. *)
Inductive Exc (A : Type) : Type :=
| Ok (a : A)
| Throw (e : Error).
Arguments Ok {A} a.
Arguments Throw {A} e.

Definition bind {A B} (c : Exc A) (k : A → Exc B) : Exc B :=
  match c with
  | Ok a => k a
  | Throw e => Throw e
  end.

#[global] Instance exc_ret : MRet Exc := @Ok.
#[global] Instance exc_bind : MBind Exc := λ A B k c, bind c k.

(** Own-property lookup in the property list of an object; of two bindings
    of one name the first is the one in force. *)
Fixpoint own (name : string) (props : list (string * Value)) : option Value :=
  match props with
  | [] => None
  | (k, v) :: rest => if String.eqb k name then Some v else own name rest
  end.

(** [v.name], for a [name] that no built-in prototype defines: a
    [TypeError] on [null] and [undefined], the own property of an object,
    [undefined] everywhere else. *)
Definition get (v : Value) (name : string) : Exc Value :=
  match v with
  | Undefined | Null => Throw TypeError
  | Obj props => Ok (default Undefined (own name props))
  | _ => Ok Undefined
  end.

(** [ToBoolean]. *)
Definition truthy (v : Value) : bool :=
  match v with
  | Undefined | Null => false
  | Bool b => b
  | Num repr => negb (String.eqb repr "0" || String.eqb repr "NaN")
  | Str s => negb (String.eqb s "")
  | Arr _ | Obj _ => true
  end.

Fixpoint intercalate (sep : string) (parts : list string) : string :=
  match parts with
  | [] => ""
  | [p] => p
  | p :: rest => p ++ sep ++ intercalate sep rest
  end.

Fixpoint sequence {A} (cs : list (Exc A)) : Exc (list A) :=
  match cs with
  | [] => Ok []
  | c :: rest => bind c (λ a, bind (sequence rest) (λ l, Ok (a :: l)))
  end.

(** [ToString]. An array prints as its elements joined by commas. A plain
    object prints as [[object Object]], unless it has an own [toString]
    property: a parsed value is never callable, so [OrdinaryToPrimitive]
    skips it, gets the object itself back from [valueOf] (or skips that one
    too) and raises a [TypeError]. *)
Fixpoint to_string (v : Value) : Exc string :=
  match v with
  | Undefined => Ok "undefined"
  | Null => Ok "null"
  | Bool true => Ok "true"
  | Bool false => Ok "false"
  | Num repr => Ok repr
  | Str s => Ok s
  | Arr items =>
      bind (sequence (map (λ item,
              match item with
              | Undefined | Null => Ok ""
              | _ => to_string item
              end) items))
           (λ parts, Ok (intercalate "," parts))
  | Obj props =>
      match own "toString" props with
      | Some _ => Throw TypeError
      | None => Ok "[object Object]"
      end
  end.

(** One element of [Array.prototype.join]: [null] and [undefined] print as
    the empty string. *)
Definition join_item (item : Value) : Exc string :=
  match item with
  | Undefined | Null => Ok ""
  | _ => to_string item
  end.

(** [v.join(sep)]: only an array has a callable [join]. *)
Definition join (v : Value) (sep : string) : Exc string :=
  match v with
  | Arr items =>
      bind (sequence (map join_item items))
           (λ parts, Ok (intercalate sep parts))
  | _ => Throw TypeError
  end.

(** [v.toUpperCase()]: only a string has a callable [toUpperCase]; [upper]
    is the host's case mapping. *)
Definition toUpperCase (upper : string → string) (v : Value) : Exc string :=
  match v with
  | Str s => Ok (upper s)
  | _ => Throw TypeError
  end.

(** [a || b]. *)
Definition or_else (a b : Value) : Value := if truthy a then a else b.

End Js.

(** ** Data model *)

Module Message.
Record t : Type := {
  id : string;
  direction : string;
  from : string;
  body : string;
  createdAt : string
}.
End Message.

(** [CONFIG]: each key is read from the process environment once, at load
    time, and may be absent. [TIMEZONE] is a literal of the source. *)
Record Config : Type := {
  OPENPHONE_API_KEY : option string;
  OPENAI_API_KEY : option string;
  GOOGLE_SHEETS_CREDENTIALS : option string;
  SLACK_WEBHOOK_URL : option string;
  GOOGLE_SHEET_ID : option string
}.

Definition TIMEZONE : string := "America/New_York".

(** [!x] is false: the variable is set, and not to the empty string. *)
Definition provided (x : option string) : bool :=
  match x with
  | Some s => negb (String.eqb s "")
  | None => false
  end.

Definition env_string (x : option string) : string := default "" x.

(** The body of [sheets.spreadsheets.values.append] and [.update]. *)
Record SheetRequest : Type := {
  spreadsheetId : string;
  range : string;
  valueInputOption : string;
  values : list (list Js.Value)
}.

(** What [urgencyEmoji[key] || default] evaluates to. The object literal has
    three own keys; a key naming a member of [Object.prototype] reads that
    member, which is truthy, through the prototype chain. *)
Inductive Marker : Type :=
| MarkUrgent
| MarkAsap
| MarkNormal
| MarkInherited (key : string).

Definition object_prototype_keys : list string :=
  [ "constructor"; "__defineGetter__"; "__defineSetter__"; "hasOwnProperty";
    "__lookupGetter__"; "__lookupSetter__"; "isPrototypeOf";
    "propertyIsEnumerable"; "toString"; "valueOf"; "__proto__";
    "toLocaleString" ].

Definition urgencyEmoji (key : string) : Marker :=
  if String.eqb key "urgent" then MarkUrgent
  else if String.eqb key "asap" then MarkAsap
  else if String.eqb key "normal" then MarkNormal
  else if existsb (String.eqb key) object_prototype_keys then MarkInherited key
  else MarkNormal.

(** The interpolated parts of the Slack message, in the order the object
    literal evaluates them; the fixed labels around them are left out. *)
Record SlackMessage : Type := {
  emoji : Marker;
  customer : string;
  phone : string;
  products : string;
  quantities : string;
  totalAmount : string;
  urgency : string;
  specialRequests : string;
  originalBody : string;
  received : string;
  messageId : string
}.

(** ** The world outside the process *)

Inductive FetchReply : Type :=
| FetchRejects (e : Js.Error)
  (* the request fails, the status is not 2xx, or the response has no
     [data] to read [data.data] from *)
| FetchResolves (data : option (list Message.t))
  (* [response.data.data]; [None] when it is falsy *).

Inductive GptReply : Type :=
| GptThrows (e : Js.Error)
  (* the request fails, the response has no [choices[0].message.content],
     or [JSON.parse] raises a [SyntaxError] on the content *)
| GptParsed (analysis : Js.Value)
  (* what [JSON.parse] returns for the content *).

(** What the process cannot decide by itself. Each request is answered as
    a function of what is sent; the clock is read when a ledger row is built
    and when a run ends; date parsing, locale formatting and case mapping
    are the host's. *)
Record World : Type := {
  (* GET /v1/messages with [createdAfter] *)
  openphone_get : Z → FetchReply;
  (* POST /v1/chat/completions with the prompt made from the message *)
  openai_post : Message.t → GptReply;
  (* whether the credentials parse and the Sheets client can be built *)
  sheets_client : string → bool;
  (* whether [values.append] and [values.update] resolve *)
  sheets_append : SheetRequest → bool;
  sheets_update : SheetRequest → bool;
  (* whether the POST to the webhook resolves *)
  slack_post : string → SlackMessage → bool;
  (* [new Date()] at module load, in [logOrderToSheet], at the end of a run *)
  now_boot : Z;
  now_ledger : Message.t → Z;
  now_end : Z;
  (* [new Date(text)]; [None] for an invalid date *)
  Date_parse : string → option Z;
  (* [date.toLocaleString(locale, { timeZone })] *)
  toLocaleString : string → string → Z → string;
  (* [text.toUpperCase()] *)
  String_toUpperCase : string → string
}.

(** ** Traces *)

Inductive LogLine : Type :=
| SheetsCredentialsMissing
| SheetsInitialized
| SheetsInitFailed
| OpenPhoneKeyMissing
| FetchFailed (e : Js.Error)
| OpenAIKeyMissing
| AnalyzeFailed (e : Js.Error)
| SheetsNotConfigured
| OrderLogged
| SheetLogFailed (e : Js.Error)
| SlackUrlMissing
| SlackSent
| SlackFailed (e : Js.Error)
| Starting
| Found (n : nat)
| Processing (id from : string)
| OrderDetected (id : string)
| OrderProcessed (id : string)
| OrderProcessedWithIssues (id : string)
| NoOrderDetected (id : string)
| Completed
| ProcessingFailed (e : Js.Error)
| HeadersDone
| HeadersFailed (e : Js.Error).

Inductive Event : Type :=
| Console (line : LogLine)
| GetMessages (createdAfter : Z)
| PostCompletion (message : Message.t)
| AppendValues (request : SheetRequest)
| UpdateValues (request : SheetRequest)
| PostWebhook (url : string) (payload : SlackMessage).

(** ** Process state and the monad of the service's methods *)

(** [this.processedMessageIds], [this.sheets] (whether the client was built)
    and the module-level [lastProcessedTime], in milliseconds. *)
Record State : Type := {
  processedMessageIds : gset string;
  sheets : bool;
  lastProcessedTime : Z
}.

(** An [async] method: it reads and writes the state, leaves a trace, and
    either returns or raises. State written before an exception stays
    written. *)
Definition Run (A : Type) : Type := State → Js.Exc A * State * list Event.

Definition ret {A} (a : A) : Run A := λ s, (Js.Ok a, s, []).

Definition raise {A} (e : Js.Error) : Run A := λ s, (Js.Throw e, s, []).

Definition bind {A B} (c : Run A) (k : A → Run B) : Run B := λ s,
  match c s with
  | (Js.Ok a, s1, t1) => let '(r, s2, t2) := k a s1 in (r, s2, t1 ++ t2)
  | (Js.Throw e, s1, t1) => (Js.Throw e, s1, t1)
  end.

#[global] Instance run_ret : MRet Run := @ret.
#[global] Instance run_bind : MBind Run := λ A B k c, bind c k.

(** [try { c } catch (e) { handler e }]. *)
Definition try_catch {A} (c : Run A) (handler : Js.Error → Run A) : Run A := λ s,
  match c s with
  | (Js.Throw e, s1, t1) => let '(r, s2, t2) := handler e s1 in (r, s2, t1 ++ t2)
  | done => done
  end.

Definition emit (ev : Event) : Run unit := λ s, (Js.Ok tt, s, [ev]).

Definition console (line : LogLine) : Run unit := emit (Console line).

Definition gets {A} (f : State → A) : Run A := λ s, (Js.Ok (f s), s, []).

Definition modify (f : State → State) : Run unit := λ s, (Js.Ok tt, f s, []).

Definition lift {A} (c : Js.Exc A) : Run A := λ s, (c, s, []).

(** A step that raises [e] unless it goes through. *)
Definition must (ok : bool) (e : Js.Error) : Run unit :=
  if ok then ret tt else raise e.

(** [await] of a request that either resolves or rejects. *)
Definition await (resolves : bool) : Run unit := must resolves Js.Rejected.

(** [for (const x of items) body]. *)
Fixpoint for_of {A} (items : list A) (body : A → Run unit) : Run unit :=
  match items with
  | [] => ret tt
  | x :: rest => body x;; for_of rest body
  end.

(** [this.processedMessageIds.add(id)]. *)
Definition add_processed (id : string) : Run unit :=
  modify (λ s, {| processedMessageIds := {[id]} ∪ processedMessageIds s;
                  sheets := sheets s;
                  lastProcessedTime := lastProcessedTime s |}).

Definition set_sheets : Run unit :=
  modify (λ s, {| processedMessageIds := processedMessageIds s;
                  sheets := true;
                  lastProcessedTime := lastProcessedTime s |}).

Definition set_lastProcessedTime (t : Z) : Run unit :=
  modify (λ s, {| processedMessageIds := processedMessageIds s;
                  sheets := sheets s;
                  lastProcessedTime := t |}).

(** ** The service *)

Section Service.

Context (CONFIG : Config) (w : World).

Definition initializeGoogleSheets : Run unit :=
  try_catch
    (if negb (provided (GOOGLE_SHEETS_CREDENTIALS CONFIG)) then
       console SheetsCredentialsMissing
     else
       must (sheets_client w (env_string (GOOGLE_SHEETS_CREDENTIALS CONFIG)))
            Js.SyntaxError;;
       set_sheets;;
       console SheetsInitialized)
    (λ _, console SheetsInitFailed).

(** Module load and [new OrderAutomationService()]: the watermark starts at
    the load time, the set of processed ids starts empty. *)
Definition boot : State * list Event :=
  let '(_, s, t) :=
    initializeGoogleSheets
      {| processedMessageIds := ∅; sheets := false;
         lastProcessedTime := now_boot w |} in
  (s, t).

Definition fetchOpenPhoneMessages : Run (list Message.t) :=
  try_catch
    (if negb (provided (OPENPHONE_API_KEY CONFIG)) then
       console OpenPhoneKeyMissing;;
       mret []
     else
       createdAfter ← gets lastProcessedTime;
       emit (GetMessages createdAfter);;
       match openphone_get w createdAfter with
       | FetchRejects e => raise e
       | FetchResolves data => mret (default [] data)
       end)
    (λ e, console (FetchFailed e);; mret []).

(** [{ isOrder: false }]. *)
Definition not_order : Js.Value := Js.Obj [("isOrder", Js.Bool false)].

(** The interpolated parts of the [prompt] template literal, in order: the
    body, the sender and the creation time of the message, each converted to
    a string; the fixed text around them is left out. *)
Record Prompt : Type := {
  prompt_body : string;
  prompt_from : string;
  prompt_createdAt : string
}.

Definition prompt (message : Message.t) : Js.Exc Prompt :=
  body ← Js.to_string (Js.Str (Message.body message));
  from ← Js.to_string (Js.Str (Message.from message));
  createdAt ← Js.to_string (Js.Str (Message.createdAt message));
  mret {| prompt_body := body;
          prompt_from := from;
          prompt_createdAt := createdAt |}.

(** The prompt is built first, outside the [try]; the request is recorded
    by the message its prompt was built from. *)
Definition analyzeMessageForOrder (message : Message.t) : Run Js.Value :=
  lift (prompt message);;
  try_catch
    (if negb (provided (OPENAI_API_KEY CONFIG)) then
       console OpenAIKeyMissing;;
       mret not_order
     else
       emit (PostCompletion message);;
       match openai_post w message with
       | GptThrows e => raise e
       | GptParsed analysis => mret analysis
       end)
    (λ e, console (AnalyzeFailed e);; mret not_order).

(** The [row] array literal of [logOrderToSheet], element by element. *)
Definition ledger_row (timestamp : string) (orderData : Js.Value)
    (originalMessage : Message.t) : Js.Exc (list Js.Value) :=
  customerName ← Js.get orderData "customerName";
  customerPhone ← Js.get orderData "customerPhone";
  products ← Js.get orderData "products";
  productsJoined ← Js.join products ", ";
  quantities ← Js.get orderData "quantities";
  quantitiesJoined ← Js.join quantities ", ";
  totalAmount ← Js.get orderData "totalAmount";
  specialRequests ← Js.get orderData "specialRequests";
  urgency ← Js.get orderData "urgency";
  mret [ Js.Str timestamp; customerName; customerPhone;
         Js.Str productsJoined; Js.Str quantitiesJoined; totalAmount;
         specialRequests; urgency;
         Js.Str (Message.body originalMessage);
         Js.Str (Message.id originalMessage);
         Js.Str "Pending" ].

Definition append_request (row : list Js.Value) : SheetRequest :=
  {| spreadsheetId := env_string (GOOGLE_SHEET_ID CONFIG);
     range := "Orders!A:K";
     valueInputOption := "USER_ENTERED";
     values := [row] |}.

Definition logOrderToSheet (orderData : Js.Value) (originalMessage : Message.t)
    : Run bool :=
  try_catch
    (client ← gets sheets;
     if negb client || negb (provided (GOOGLE_SHEET_ID CONFIG)) then
       console SheetsNotConfigured;;
       mret false
     else
       let timestamp :=
         toLocaleString w "en-US" TIMEZONE (now_ledger w originalMessage) in
       row ← lift (ledger_row timestamp orderData originalMessage);
       emit (AppendValues (append_request row));;
       await (sheets_append w (append_request row));;
       console OrderLogged;;
       mret true)
    (λ e, console (SheetLogFailed e);; mret false).

(** [new Date(createdAt).toLocaleString('en-US', { timeZone })]. *)
Definition received_at (originalMessage : Message.t) : string :=
  match Date_parse w (Message.createdAt originalMessage) with
  | Some t => toLocaleString w "en-US" TIMEZONE t
  | None => "Invalid Date"
  end.

(** The [message] object literal of [sendSlackNotification], in evaluation
    order: the marker is looked up under the property key made from
    [orderData.urgency], then each template literal converts its value. *)
Definition slack_message (orderData : Js.Value) (originalMessage : Message.t)
    : Js.Exc SlackMessage :=
  urgencyKey ← Js.get orderData "urgency" ≫= Js.to_string;
  customerName ← Js.get orderData "customerName" ≫= Js.to_string;
  customerPhone ← Js.get orderData "customerPhone" ≫= Js.to_string;
  products ← Js.get orderData "products";
  productsJoined ← Js.join products ", ";
  quantities ← Js.get orderData "quantities";
  quantitiesJoined ← Js.join quantities ", ";
  total ← Js.get orderData "totalAmount" ≫= Js.to_string;
  urgencyUpper ← Js.get orderData "urgency"
                   ≫= Js.toUpperCase (String_toUpperCase w);
  special ← Js.get orderData "specialRequests";
  specialText ← Js.to_string (Js.or_else special (Js.Str "None"));
  mret {| emoji := urgencyEmoji urgencyKey;
          customer := customerName;
          phone := customerPhone;
          products := productsJoined;
          quantities := quantitiesJoined;
          totalAmount := total;
          urgency := urgencyUpper;
          specialRequests := specialText;
          originalBody := Message.body originalMessage;
          received := received_at originalMessage;
          messageId := Message.id originalMessage |}.

Definition sendSlackNotification (orderData : Js.Value)
    (originalMessage : Message.t) : Run bool :=
  try_catch
    (if negb (provided (SLACK_WEBHOOK_URL CONFIG)) then
       console SlackUrlMissing;;
       mret false
     else
       let url := env_string (SLACK_WEBHOOK_URL CONFIG) in
       message ← lift (slack_message orderData originalMessage);
       emit (PostWebhook url message);;
       await (slack_post w url message);;
       console SlackSent;;
       mret true)
    (λ e, console (SlackFailed e);; mret false).

(** The body of the [for] loop of [processMessages]; a [continue] ends it. *)
Definition loop_body (message : Message.t) : Run unit :=
  ids ← gets processedMessageIds;
  if bool_decide (Message.id message ∈ ids) then
    mret tt
  else if negb (String.eqb (Message.direction message) "inbound") then
    add_processed (Message.id message)
  else
    console (Processing (Message.id message) (Message.from message));;
    analysis ← analyzeMessageForOrder message;
    isOrder ← lift (Js.get analysis "isOrder");
    (if Js.truthy isOrder then
       console (OrderDetected (Message.id message));;
       sheetSuccess ← logOrderToSheet analysis message;
       slackSuccess ← sendSlackNotification analysis message;
       if sheetSuccess && slackSuccess then
         console (OrderProcessed (Message.id message))
       else
         console (OrderProcessedWithIssues (Message.id message))
     else
       console (NoOrderDetected (Message.id message)));;
    add_processed (Message.id message).

(** [processMessages] has no [return]: its promise resolves to
    [undefined]. *)
Definition processMessages : Run Js.Value :=
  console Starting;;
  try_catch
    (messages ← fetchOpenPhoneMessages;
     console (Found (List.length messages));;
     for_of messages loop_body;;
     set_lastProcessedTime (now_end w);;
     console Completed)
    (λ e, console (ProcessingFailed e));;
  mret Js.Undefined.

Definition headers : list Js.Value :=
  map Js.Str
    [ "Timestamp"; "Customer Name"; "Customer Phone"; "Products";
      "Quantities"; "Total Amount"; "Special Requests"; "Urgency";
      "Original Message"; "Message ID"; "Status" ].

Definition headers_request : SheetRequest :=
  {| spreadsheetId := env_string (GOOGLE_SHEET_ID CONFIG);
     range := "Orders!A1:K1";
     valueInputOption := "USER_ENTERED";
     values := [headers] |}.

Definition setupGoogleSheetHeaders : Run bool :=
  try_catch
    (client ← gets sheets;
     must (client && provided (GOOGLE_SHEET_ID CONFIG)) Js.Failure;;
     emit (UpdateValues headers_request);;
     await (sheets_update w headers_request);;
     console HeadersDone;;
     mret true)
    (λ e, console (HeadersFailed e);; raise e).

End Service.

(** ** Reading the outcome of a method *)

Definition result {A} (o : Js.Exc A * State * list Event) : Js.Exc A := o.1.1.
Definition final {A} (o : Js.Exc A * State * list Event) : State := o.1.2.
Definition trace {A} (o : Js.Exc A * State * list Event) : list Event := o.2.

(** The state after [this.processedMessageIds.add(id)]. *)
Definition marked (id : string) (s : State) : State :=
  {| processedMessageIds := {[id]} ∪ processedMessageIds s;
     sheets := sheets s;
     lastProcessedTime := lastProcessedTime s |}.

(** Whether a sink call returned [true]. *)
Definition succeeded (o : Js.Exc bool * State * list Event) : bool :=
  match result o with
  | Js.Ok success => success
  | Js.Throw _ => false
  end.

(** ** Operations over a process lifetime *)

(** The methods of the service, as invocations on a running instance. The
    scheduler and the control surface invoke [processMessages] and
    [setupGoogleSheetHeaders]; the others are invoked by these two and by
    the constructor. *)
Inductive Op : Type :=
| InitializeGoogleSheets
| FetchOpenPhoneMessages
| AnalyzeMessageForOrder (message : Message.t)
| LogOrderToSheet (orderData : Js.Value) (message : Message.t)
| SendSlackNotification (orderData : Js.Value) (message : Message.t)
| ProcessMessages
| SetupGoogleSheetHeaders.

Definition exec (CONFIG : Config) (w : World) (op : Op) (s : State) : State :=
  match op with
  | InitializeGoogleSheets => final (initializeGoogleSheets CONFIG w s)
  | FetchOpenPhoneMessages => final (fetchOpenPhoneMessages CONFIG w s)
  | AnalyzeMessageForOrder message =>
      final (analyzeMessageForOrder CONFIG w message s)
  | LogOrderToSheet orderData message =>
      final (logOrderToSheet CONFIG w orderData message s)
  | SendSlackNotification orderData message =>
      final (sendSlackNotification CONFIG w orderData message s)
  | ProcessMessages => final (processMessages CONFIG w s)
  | SetupGoogleSheetHeaders => final (setupGoogleSheetHeaders CONFIG w s)
  end.

(** A sequence of invocations, one after the other, each against the world
    as it is at that time. *)
Fixpoint lifetime (CONFIG : Config) (calls : list (World * Op)) (s : State)
    : State :=
  match calls with
  | [] => s
  | (w, op) :: rest => lifetime CONFIG rest (exec CONFIG w op s)
  end.

(** [R] relates the state before a method to the state after it, however
    the method ends. *)
Definition respects (R : relation State) {A} (c : Run A) : Prop :=
  ∀ s, R s (final (c s)).

(** The set of processed ids only gains members. *)
Definition grows : relation State :=
  λ s s', processedMessageIds s ⊆ processedMessageIds s'.

(** The message an outgoing call is about: the classifier request carries
    the message, a ledger row carries its id in the tenth column, a Slack
    message carries it in its context line. *)
Definition about (ev : Event) : option string :=
  match ev with
  | PostCompletion message => Some (Message.id message)
  | AppendValues request =>
      match values request with
      | [row] =>
          match row !! 9%nat with
          | Some (Js.Str id) => Some id
          | _ => None
          end
      | _ => None
      end
  | PostWebhook _ payload => Some (messageId payload)
  | _ => None
  end.

(** What [fetchOpenPhoneMessages] hands to the loop. *)
Definition fetched (CONFIG : Config) (w : World) (s : State)
    : list Message.t :=
  match result (fetchOpenPhoneMessages CONFIG w s) with
  | Js.Ok messages => messages
  | Js.Throw _ => []
  end.

(** The state after [lastProcessedTime = new Date()]. *)
Definition stamped (t : Z) (s : State) : State :=
  {| processedMessageIds := processedMessageIds s;
     sheets := sheets s;
     lastProcessedTime := t |}.


(** ** A concrete setting

    One configured deployment, two messages and a few worlds around them,
    used to run the service on explicit inputs. *)

Definition config_full : Config :=
  {| OPENPHONE_API_KEY := Some "op-key";
     OPENAI_API_KEY := Some "sk-key";
     GOOGLE_SHEETS_CREDENTIALS := Some "{}";
     SLACK_WEBHOOK_URL := Some "https://hooks.slack.example/T0";
     GOOGLE_SHEET_ID := Some "sheet-1" |}.

Definition jane : Message.t :=
  {| Message.id := "AC1";
     Message.direction := "inbound";
     Message.from := "+15555551234";
     Message.body := "2 dozen oysters for pickup tomorrow, this is Jane";
     Message.createdAt := "2025-06-01T14:00:00Z" |}.

Definition hours : Message.t :=
  {| Message.id := "AC2";
     Message.direction := "inbound";
     Message.from := "+15555550000";
     Message.body := "what are your hours?";
     Message.createdAt := "2025-06-01T14:05:00Z" |}.

Definition our_reply : Message.t :=
  {| Message.id := "AC3";
     Message.direction := "outbound";
     Message.from := "+15555559999";
     Message.body := "We open at 9.";
     Message.createdAt := "2025-06-01T14:06:00Z" |}.

Definition jane_order : Js.Value :=
  Js.Obj
    [ ("isOrder", Js.Bool true);
      ("customerName", Js.Str "Jane");
      ("customerPhone", Js.Str "555-1234");
      ("products", Js.Arr [Js.Str "oysters"]);
      ("quantities", Js.Arr [Js.Str "2 dozen"]);
      ("totalAmount", Js.Str "TBD");
      ("specialRequests", Js.Str "pickup tomorrow");
      ("urgency", Js.Str "normal");
      ("extractedText", Js.Str "2 dozen oysters") ].

(** Valid JSON that is neither [{ isOrder: false }] nor a full order. *)
Definition bare_order : Js.Value := Js.Obj [("isOrder", Js.Bool true)].

Definition upper_ascii (c : ascii) : ascii :=
  let n := nat_of_ascii c in
  if (97 <=? n)%nat && (n <=? 122)%nat then ascii_of_nat (n - 32) else c.

Fixpoint upper (s : string) : string :=
  match s with
  | EmptyString => EmptyString
  | String c rest => String (upper_ascii c) (upper rest)
  end.

(** A world in which the fetch gives [fetch], the classifier answers every
    message with [gpt], and the two sinks accept or refuse every request. *)
Definition world (fetch : FetchReply) (gpt : GptReply)
    (append_ok post_ok : bool) : World :=
  {| openphone_get := λ _, fetch;
     openai_post := λ _, gpt;
     sheets_client := λ _, true;
     sheets_append := λ _, append_ok;
     sheets_update := λ _, true;
     slack_post := λ _ _, post_ok;
     now_boot := 0%Z;
     now_ledger := λ _, 1000%Z;
     now_end := 2000%Z;
     Date_parse := λ _, Some 500%Z;
     toLocaleString := λ _ _ _, "6/1/2025, 10:00:00 AM";
     String_toUpperCase := upper |}.

Definition fresh : State :=
  {| processedMessageIds := ∅; sheets := true; lastProcessedTime := 0%Z |}.

(** The same world with another answer from the ledger, or from Slack. *)
Definition with_sheets_append (answer : SheetRequest → bool) (w : World)
    : World :=
  {| openphone_get := openphone_get w;
     openai_post := openai_post w;
     sheets_client := sheets_client w;
     sheets_append := answer;
     sheets_update := sheets_update w;
     slack_post := slack_post w;
     now_boot := now_boot w;
     now_ledger := now_ledger w;
     now_end := now_end w;
     Date_parse := Date_parse w;
     toLocaleString := toLocaleString w;
     String_toUpperCase := String_toUpperCase w |}.

Definition with_slack_post (answer : string → SlackMessage → bool)
    (w : World) : World :=
  {| openphone_get := openphone_get w;
     openai_post := openai_post w;
     sheets_client := sheets_client w;
     sheets_append := sheets_append w;
     sheets_update := sheets_update w;
     slack_post := answer;
     now_boot := now_boot w;
     now_ledger := now_ledger w;
     now_end := now_end w;
     Date_parse := Date_parse w;
     toLocaleString := toLocaleString w;
     String_toUpperCase := String_toUpperCase w |}.

(** ** The control surface

    The Express handlers that wrap the service: what each one answers, as
    the status code and the JSON body given to [res]. *)

Module Http.
Record Response : Type := {
  status : nat;
  json : Js.Value
}.
End Http.

(** [error.message]: the text given to [new Error] where the service raises
    the error itself, and what the library that raised it says otherwise. *)
Definition error_message (said : Js.Error → string) (e : Js.Error) : string :=
  match e with
  | Js.Failure => "Google Sheets not configured"
  | _ => said e
  end.

Definition answer_ok (message : string) : Http.Response :=
  {| Http.status := 200;
     Http.json := Js.Obj [("success", Js.Bool true);
                          ("message", Js.Str message)] |}.

Definition answer_error (message : string) : Http.Response :=
  {| Http.status := 500;
     Http.json := Js.Obj [("success", Js.Bool false);
                          ("error", Js.Str message)] |}.

(** [GET /setup-sheets] and [POST /setup-sheets]: the two handlers have the
    same body. *)
Definition setup_sheets (CONFIG : Config) (w : World)
    (said : Js.Error → string) : Run Http.Response :=
  try_catch
    (setupGoogleSheetHeaders CONFIG w;;
     mret (answer_ok "Google Sheets setup completed"))
    (λ e, mret (answer_error (error_message said e))).

(** [GET /process-now] and [POST /process-now]. *)
Definition process_now (CONFIG : Config) (w : World)
    (said : Js.Error → string) : Run Http.Response :=
  try_catch
    (processMessages CONFIG w;;
     mret (answer_ok "Processing completed"))
    (λ e, mret (answer_error (error_message said e))).

(** ** The schedule

    The two [cron.schedule] expressions. Of the cron syntax only what they
    use is read: five fields separated by blanks, each either a star or a
    list of numbers separated by commas. *)

Definition primary_schedule : string := "0 5,6,8,9,11,12,14,15 * * *".
Definition secondary_schedule : string := "30 6,8,10,12,14 * * *".

Fixpoint split_on (sep : ascii) (text : string) : list string :=
  match text with
  | EmptyString => [EmptyString]
  | String c rest =>
      if Ascii.eqb c sep then EmptyString :: split_on sep rest
      else match split_on sep rest with
           | [] => [String c EmptyString]
           | word :: words => String c word :: words
           end
  end.

Definition digit (c : ascii) : option nat :=
  let n := nat_of_ascii c in
  if (48 <=? n)%nat && (n <=? 57)%nat then Some (n - 48)%nat else None.

Fixpoint number_from (acc : nat) (text : string) : option nat :=
  match text with
  | EmptyString => Some acc
  | String c rest =>
      match digit c with
      | Some d => number_from (10 * acc + d) rest
      | None => None
      end
  end.

Definition number (text : string) : option nat :=
  match text with
  | EmptyString => None
  | _ => number_from 0 text
  end.

(** Whether one field of an expression admits [value]. *)
Definition field_admits (field : string) (value : nat) : bool :=
  if String.eqb field "*" then true
  else existsb (λ item,
         match number item with
         | Some n => Nat.eqb n value
         | None => false
         end) (split_on "," field).

(** Whether [expression] fires at the start of the given minute. *)
Definition fires (expression : string)
    (minute hour day month weekday : nat) : bool :=
  match split_on " " expression with
  | [f_minute; f_hour; f_day; f_month; f_weekday] =>
      field_admits f_minute minute && field_admits f_hour hour
      && field_admits f_day day && field_admits f_month month
      && field_admits f_weekday weekday
  | _ => false
  end.

(** Whether either schedule starts a run at [hour]:[minute]; the day fields
    of both expressions are stars. *)
Definition run_starts (hour minute : nat) : bool :=
  fires primary_schedule minute hour 1 1 0
  || fires secondary_schedule minute hour 1 1 0.

(** Minutes since midnight of the start times of a day, in order. *)
Definition start_times : list nat :=
  filter (λ t, Is_true (run_starts (t / 60) (t mod 60))) (seq 0 (24 * 60)).

(** ** Traces over a process lifetime *)

Definition exec_trace (CONFIG : Config) (w : World) (op : Op) (s : State)
    : list Event :=
  match op with
  | InitializeGoogleSheets => trace (initializeGoogleSheets CONFIG w s)
  | FetchOpenPhoneMessages => trace (fetchOpenPhoneMessages CONFIG w s)
  | AnalyzeMessageForOrder message =>
      trace (analyzeMessageForOrder CONFIG w message s)
  | LogOrderToSheet orderData message =>
      trace (logOrderToSheet CONFIG w orderData message s)
  | SendSlackNotification orderData message =>
      trace (sendSlackNotification CONFIG w orderData message s)
  | ProcessMessages => trace (processMessages CONFIG w s)
  | SetupGoogleSheetHeaders => trace (setupGoogleSheetHeaders CONFIG w s)
  end.

(** The events of a sequence of invocations that do not overlap: each one
    runs to its end before the next is started. *)
Fixpoint lifetime_trace (CONFIG : Config) (calls : list (World * Op))
    (s : State) : list Event :=
  match calls with
  | [] => []
  | (w, op) :: rest =>
      exec_trace CONFIG w op s ++ lifetime_trace CONFIG rest (exec CONFIG w op s)
  end.

(** A request to the Sheets API. *)
Definition is_sheets_request (ev : Event) : bool :=
  match ev with
  | AppendValues _ | UpdateValues _ => true
  | _ => false
  end.

(** A request to any endpoint outside the process. *)
Definition is_request (ev : Event) : bool :=
  match ev with
  | Console _ => false
  | _ => true
  end.

(** ** Judgments of the contracted shape *)

(** The order the prompt asks the model for. *)
Record Order : Type := {
  order_customerName : string;
  order_customerPhone : string;
  order_products : list string;
  order_quantities : list string;
  order_totalAmount : string;
  order_specialRequests : string;
  order_urgency : string;
  order_extractedText : string
}.

(** [orderData] holds [order] under the names of the prompt, whatever else
    it holds and in whatever order. *)
Definition holds (orderData : Js.Value) (order : Order) : Prop :=
  Js.get orderData "customerName" = Js.Ok (Js.Str (order_customerName order))
  ∧ Js.get orderData "customerPhone"
      = Js.Ok (Js.Str (order_customerPhone order))
  ∧ Js.get orderData "products"
      = Js.Ok (Js.Arr (Js.Str <$> order_products order))
  ∧ Js.get orderData "quantities"
      = Js.Ok (Js.Arr (Js.Str <$> order_quantities order))
  ∧ Js.get orderData "totalAmount"
      = Js.Ok (Js.Str (order_totalAmount order))
  ∧ Js.get orderData "specialRequests"
      = Js.Ok (Js.Str (order_specialRequests order))
  ∧ Js.get orderData "urgency" = Js.Ok (Js.Str (order_urgency order)).

Definition jane_as_order : Order :=
  {| order_customerName := "Jane";
     order_customerPhone := "555-1234";
     order_products := ["oysters"];
     order_quantities := ["2 dozen"];
     order_totalAmount := "TBD";
     order_specialRequests := "pickup tomorrow";
     order_urgency := "normal";
     order_extractedText := "2 dozen oysters" |}.

(** ** Kinds of requests *)

Definition is_fetch (ev : Event) : bool :=
  match ev with GetMessages _ => true | _ => false end.

Definition is_classify (ev : Event) : bool :=
  match ev with PostCompletion _ => true | _ => false end.

Definition is_append (ev : Event) : bool :=
  match ev with AppendValues _ => true | _ => false end.

Definition is_post (ev : Event) : bool :=
  match ev with PostWebhook _ _ => true | _ => false end.

(** The requests of one kind that a trace holds about one message id. *)
Definition calls_about (kind : Event → bool) (id : string) (t : list Event)
    : list Event :=
  List.filter (λ ev, kind ev && bool_decide (about ev = Some id)) t.

(** The same world with another classifier. *)
Definition with_openai_post (answer : Message.t → GptReply) (w : World)
    : World :=
  {| openphone_get := openphone_get w;
     openai_post := answer;
     sheets_client := sheets_client w;
     sheets_append := sheets_append w;
     sheets_update := sheets_update w;
     slack_post := slack_post w;
     now_boot := now_boot w;
     now_ledger := now_ledger w;
     now_end := now_end w;
     Date_parse := Date_parse w;
     toLocaleString := toLocaleString w;
     String_toUpperCase := String_toUpperCase w |}.

(** A classifier that finds no order in [hours] and whose content parses
    to [null] for every other message. *)
Definition null_but_for_hours (message : Message.t) : GptReply :=
  if String.eqb (Message.id message) "AC2" then GptParsed not_order
  else GptParsed Js.Null.

(** * Equations of the methods *)

Ltac run_unfold :=
  unfold mbind, mret, run_bind, run_ret, bind, ret, raise, try_catch,
    console, emit, gets, modify, lift, await, must,
    add_processed, set_sheets, set_lastProcessedTime in *.

Lemma bind_eq {A B} (c : Run A) (k : A → Run B) s :
  (c ≫= k) s =
    match c s with
    | (Js.Ok a, s1, t1) => let '(r, s2, t2) := k a s1 in (r, s2, t1 ++ t2)
    | (Js.Throw e, s1, t1) => (Js.Throw e, s1, t1)
    end.
Proof. reflexivity. Qed.

Lemma try_catch_eq {A} (c : Run A) (handler : Js.Error → Run A) s :
  try_catch c handler s =
    match c s with
    | (Js.Throw e, s1, t1) =>
        let '(r, s2, t2) := handler e s1 in (r, s2, t1 ++ t2)
    | (Js.Ok a, s1, t1) => (Js.Ok a, s1, t1)
    end.
Proof. unfold try_catch. by destruct (c s) as [[[a|e] s1] t1]. Qed.

Section Equations.

Context (CONFIG : Config) (w : World).

Lemma fetchOpenPhoneMessages_eq s :
  fetchOpenPhoneMessages CONFIG w s =
    if provided (OPENPHONE_API_KEY CONFIG) then
      match openphone_get w (lastProcessedTime s) with
      | FetchRejects e =>
          (Js.Ok [], s,
           [GetMessages (lastProcessedTime s); Console (FetchFailed e)])
      | FetchResolves data =>
          (Js.Ok (default [] data), s, [GetMessages (lastProcessedTime s)])
      end
    else (Js.Ok [], s, [Console OpenPhoneKeyMissing]).
Proof.
  unfold fetchOpenPhoneMessages. run_unfold.
  destruct (provided _); simpl; [|done].
  by destruct (openphone_get _ _).
Qed.

Lemma analyzeMessageForOrder_eq message s :
  analyzeMessageForOrder CONFIG w message s =
    if provided (OPENAI_API_KEY CONFIG) then
      match openai_post w message with
      | GptThrows e =>
          (Js.Ok not_order, s,
           [PostCompletion message; Console (AnalyzeFailed e)])
      | GptParsed analysis => (Js.Ok analysis, s, [PostCompletion message])
      end
    else (Js.Ok not_order, s, [Console OpenAIKeyMissing]).
Proof.
  unfold analyzeMessageForOrder, prompt. run_unfold.
  destruct (provided _); simpl; [|done].
  by destruct (openai_post _ _).
Qed.

Lemma logOrderToSheet_eq orderData message s :
  logOrderToSheet CONFIG w orderData message s =
    if sheets s && provided (GOOGLE_SHEET_ID CONFIG) then
      match ledger_row
              (toLocaleString w "en-US" TIMEZONE (now_ledger w message))
              orderData message with
      | Js.Throw e => (Js.Ok false, s, [Console (SheetLogFailed e)])
      | Js.Ok row =>
          if sheets_append w (append_request CONFIG row) then
            (Js.Ok true, s,
             [AppendValues (append_request CONFIG row); Console OrderLogged])
          else
            (Js.Ok false, s,
             [AppendValues (append_request CONFIG row);
              Console (SheetLogFailed Js.Rejected)])
      end
    else (Js.Ok false, s, [Console SheetsNotConfigured]).
Proof.
  unfold logOrderToSheet. run_unfold.
  destruct (sheets s); simpl; [|done].
  destruct (provided _); simpl; [|done].
  destruct (ledger_row _ _ _) as [row|e]; simpl; [|done].
  by destruct (sheets_append _ _).
Qed.

Lemma sendSlackNotification_eq orderData message s :
  sendSlackNotification CONFIG w orderData message s =
    if provided (SLACK_WEBHOOK_URL CONFIG) then
      let url := env_string (SLACK_WEBHOOK_URL CONFIG) in
      match slack_message w orderData message with
      | Js.Throw e => (Js.Ok false, s, [Console (SlackFailed e)])
      | Js.Ok payload =>
          if slack_post w url payload then
            (Js.Ok true, s, [PostWebhook url payload; Console SlackSent])
          else
            (Js.Ok false, s,
             [PostWebhook url payload; Console (SlackFailed Js.Rejected)])
      end
    else (Js.Ok false, s, [Console SlackUrlMissing]).
Proof.
  unfold sendSlackNotification. run_unfold.
  destruct (provided _); simpl; [|done].
  destruct (slack_message _ _ _) as [payload|e]; simpl; [|done].
  by destruct (slack_post _ _ _).
Qed.

End Equations.

(** * The loop body, case by case *)

Section LoopBody.

Context (CONFIG : Config) (w : World).

Lemma analyzeMessageForOrder_returns message s :
  ∃ analysis t,
    analyzeMessageForOrder CONFIG w message s = (Js.Ok analysis, s, t).
Proof.
  rewrite analyzeMessageForOrder_eq.
  destruct (provided _); [destruct (openai_post _ _)|]; eauto.
Qed.

Lemma logOrderToSheet_returns orderData message s :
  ∃ success t,
    logOrderToSheet CONFIG w orderData message s = (Js.Ok success, s, t)
    ∧ t ≠ [].
Proof.
  rewrite logOrderToSheet_eq.
  destruct (_ && _); [destruct (ledger_row _ _ _);
    [destruct (sheets_append _ _)|]|]; eauto.
Qed.

Lemma sendSlackNotification_returns orderData message s :
  ∃ success t,
    sendSlackNotification CONFIG w orderData message s = (Js.Ok success, s, t)
    ∧ t ≠ [].
Proof.
  rewrite sendSlackNotification_eq.
  destruct (provided _); [simpl; destruct (slack_message _ _ _);
    [destruct (slack_post _ _ _)|]|]; eauto.
Qed.

Lemma loop_body_processed message s :
  Message.id message ∈ processedMessageIds s →
  loop_body CONFIG w message s = (Js.Ok tt, s, []).
Proof.
  intros Hin. unfold loop_body. run_unfold.
  by rewrite bool_decide_eq_true_2.
Qed.

Lemma loop_body_not_inbound message s :
  Message.id message ∉ processedMessageIds s →
  Message.direction message ≠ "inbound" →
  loop_body CONFIG w message s =
    (Js.Ok tt, marked (Message.id message) s, []).
Proof.
  intros Hin Hdir. unfold loop_body. run_unfold.
  rewrite bool_decide_eq_false_2 by done.
  apply String.eqb_neq in Hdir. by rewrite Hdir.
Qed.

(** An inbound message that was not processed yet is classified; what
    happens next depends on reading [analysis.isOrder]. *)
Lemma loop_body_inbound message s analysis t_an :
  Message.id message ∉ processedMessageIds s →
  Message.direction message = "inbound" →
  analyzeMessageForOrder CONFIG w message s = (Js.Ok analysis, s, t_an) →
  loop_body CONFIG w message s =
    let id := Message.id message in
    let opening := Console (Processing id (Message.from message)) :: t_an in
    match Js.get analysis "isOrder" with
    | Js.Throw e => (Js.Throw e, s, opening)
    | Js.Ok isOrder =>
        if Js.truthy isOrder then
          let sheet := logOrderToSheet CONFIG w analysis message s in
          let slack := sendSlackNotification CONFIG w analysis message s in
          (Js.Ok tt, marked id s,
           opening ++ [Console (OrderDetected id)]
             ++ trace sheet ++ trace slack
             ++ [Console (if succeeded sheet && succeeded slack
                          then OrderProcessed id
                          else OrderProcessedWithIssues id)])
        else
          (Js.Ok tt, marked id s, opening ++ [Console (NoOrderDetected id)])
    end.
Proof.
  intros Hin Hdir Han. unfold loop_body.
  rewrite bind_eq. unfold gets at 1.
  rewrite bool_decide_eq_false_2 by done.
  rewrite Hdir, String.eqb_refl. cbn [negb].
  rewrite bind_eq. unfold console at 1, emit at 1.
  rewrite bind_eq, Han, bind_eq. unfold lift at 1.
  destruct (Js.get analysis "isOrder") as [isOrder|e];
    [|by simpl; rewrite app_nil_r].
  rewrite bind_eq.
  destruct (logOrderToSheet_returns analysis message s) as (b1 & t1 & H1 & _).
  destruct (sendSlackNotification_returns analysis message s)
    as (b2 & t2 & H2 & _).
  destruct (Js.truthy isOrder).
  - rewrite bind_eq. unfold console at 1, emit at 1.
    rewrite bind_eq, H1, bind_eq, H2.
    unfold succeeded, result, trace. simpl.
    by destruct (b1 && b2); simpl; rewrite ?app_nil_r, <- ?app_assoc.
  - simpl. by rewrite ?app_nil_r.
Qed.

End LoopBody.

(** * Relations every method respects *)

Section Respects.

Context (R : relation State) `{!PreOrder R}.

Lemma respects_pure {A} (c : Run A) : (∀ s, final (c s) = s) → respects R c.
Proof. intros Hc s. by rewrite Hc. Qed.

Lemma respects_ret {A} (a : A) : respects R (mret a).
Proof. by apply respects_pure. Qed.

Lemma respects_raise {A} e : respects R (@raise A e).
Proof. by apply respects_pure. Qed.

Lemma respects_emit ev : respects R (emit ev).
Proof. by apply respects_pure. Qed.

Lemma respects_console line : respects R (console line).
Proof. by apply respects_pure. Qed.

Lemma respects_gets {A} (f : State → A) : respects R (gets f).
Proof. by apply respects_pure. Qed.

Lemma respects_lift {A} (c : Js.Exc A) : respects R (lift c).
Proof. by apply respects_pure. Qed.

Lemma respects_must ok e : respects R (must ok e).
Proof. apply respects_pure. by destruct ok. Qed.

Lemma respects_await ok : respects R (await ok).
Proof. apply respects_must. Qed.

Lemma respects_modify f : (∀ s, R s (f s)) → respects R (modify f).
Proof. intros Hf s. apply Hf. Qed.

Lemma respects_bind {A B} (c : Run A) (k : A → Run B) :
  respects R c → (∀ a, respects R (k a)) → respects R (c ≫= k).
Proof.
  intros Hc Hk s. rewrite bind_eq. specialize (Hc s).
  destruct (c s) as [[[a|e] s1] t1]; [|done].
  specialize (Hk a s1). destruct (k a s1) as [[r s2] t2].
  by etrans.
Qed.

Lemma respects_try_catch {A} (c : Run A) handler :
  respects R c → (∀ e, respects R (handler e)) →
  respects R (try_catch c handler).
Proof.
  intros Hc Hh s. rewrite try_catch_eq. specialize (Hc s).
  destruct (c s) as [[[a|e] s1] t1]; [done|].
  specialize (Hh e s1). destruct (handler e s1) as [[r s2] t2].
  by etrans.
Qed.

Lemma respects_for_of {A} (items : list A) body :
  (∀ x, respects R (body x)) → respects R (for_of items body).
Proof.
  intros Hbody. induction items as [|x rest IH]; simpl.
  - apply respects_ret.
  - by apply respects_bind.
Qed.

End Respects.

Section Growth.

Context (CONFIG : Config) (w : World).

#[local] Instance grows_preorder : PreOrder grows.
Proof. unfold grows. split; [intros s|intros s1 s2 s3]; set_solver. Qed.

Lemma grows_marked id s : grows s (marked id s).
Proof. unfold grows, marked. simpl. set_solver. Qed.

Lemma loop_body_final message s :
  final (loop_body CONFIG w message s) = s
  ∨ final (loop_body CONFIG w message s) = marked (Message.id message) s.
Proof.
  destruct (decide (Message.id message ∈ processedMessageIds s)) as [Hin|Hin].
  { left. by rewrite loop_body_processed. }
  destruct (decide (Message.direction message = "inbound")) as [Hdir|Hdir].
  2:{ right. by rewrite loop_body_not_inbound. }
  destruct (analyzeMessageForOrder_returns CONFIG w message s)
    as (analysis & t_an & Han).
  rewrite (loop_body_inbound _ _ _ _ _ _ Hin Hdir Han). simpl.
  destruct (Js.get analysis "isOrder") as [isOrder|e]; [|by left].
  destruct (Js.truthy isOrder); by right.
Qed.

Lemma loop_body_grows message : respects grows (loop_body CONFIG w message).
Proof.
  intros s. destruct (loop_body_final message s) as [-> | ->];
    [done | apply grows_marked].
Qed.

Lemma fetchOpenPhoneMessages_final s :
  final (fetchOpenPhoneMessages CONFIG w s) = s.
Proof.
  rewrite fetchOpenPhoneMessages_eq.
  destruct (provided _); [destruct (openphone_get _ _)|]; done.
Qed.

Lemma processMessages_grows : respects grows (processMessages CONFIG w).
Proof.
  unfold processMessages.
  apply (respects_bind grows); [apply (respects_console grows)|]. intros _.
  apply (respects_bind grows); [|intros; apply (respects_ret grows)].
  apply (respects_try_catch grows);
    [|intros; apply (respects_console grows)].
  apply (respects_bind grows).
  { apply (respects_pure grows), fetchOpenPhoneMessages_final. }
  intros messages.
  apply (respects_bind grows); [apply (respects_console grows)|]. intros _.
  apply (respects_bind grows).
  { apply (respects_for_of grows), loop_body_grows. }
  intros _.
  apply (respects_bind grows); [|intros; apply (respects_console grows)].
  apply (respects_modify grows). intros s. unfold grows. simpl. set_solver.
Qed.

Lemma setupGoogleSheetHeaders_final s :
  final (setupGoogleSheetHeaders CONFIG w s) = s.
Proof.
  unfold setupGoogleSheetHeaders. run_unfold.
  destruct (sheets s); simpl; [|done].
  destruct (provided _); simpl; [|done].
  by destruct (sheets_update _ _).
Qed.

Lemma initializeGoogleSheets_grows s :
  grows s (final (initializeGoogleSheets CONFIG w s)).
Proof.
  unfold initializeGoogleSheets, grows. run_unfold.
  destruct (provided _); simpl; [|done].
  by destruct (sheets_client _ _).
Qed.

Lemma exec_grows op s : grows s (exec CONFIG w op s).
Proof.
  destruct op; simpl.
  - apply initializeGoogleSheets_grows.
  - by rewrite fetchOpenPhoneMessages_final.
  - by destruct (analyzeMessageForOrder_returns CONFIG w message s)
      as (? & ? & ->).
  - by destruct (logOrderToSheet_returns CONFIG w orderData message s)
      as (? & ? & -> & _).
  - by destruct (sendSlackNotification_returns CONFIG w orderData message s)
      as (? & ? & -> & _).
  - apply processMessages_grows.
  - by rewrite setupGoogleSheetHeaders_final.
Qed.

End Growth.

(** * The whole run *)

Section WholeRun.

Context (CONFIG : Config) (w : World).

Lemma fetchOpenPhoneMessages_fetched s :
  ∃ t, fetchOpenPhoneMessages CONFIG w s = (Js.Ok (fetched CONFIG w s), s, t).
Proof.
  unfold fetched. rewrite fetchOpenPhoneMessages_eq.
  destruct (provided _); [destruct (openphone_get _ _)|]; eauto.
Qed.

(** A run is the fetch, the loop over what was fetched, and then either
    the watermark update or the [catch] of whatever the loop raised. *)
Lemma processMessages_eq s :
  processMessages CONFIG w s =
    let batch := fetched CONFIG w s in
    let opening :=
      Console Starting :: trace (fetchOpenPhoneMessages CONFIG w s)
        ++ [Console (Found (List.length batch))] in
    match for_of batch (loop_body CONFIG w) s with
    | (Js.Ok _, s1, t) =>
        (Js.Ok Js.Undefined, stamped (now_end w) s1,
         opening ++ t ++ [Console Completed])
    | (Js.Throw e, s1, t) =>
        (Js.Ok Js.Undefined, s1,
         opening ++ t ++ [Console (ProcessingFailed e)])
    end.
Proof.
  destruct (fetchOpenPhoneMessages_fetched s) as [t_fetch Hfetch].
  unfold processMessages.
  rewrite bind_eq. unfold console at 1, emit at 1.
  rewrite bind_eq, try_catch_eq, bind_eq, Hfetch.
  rewrite bind_eq. unfold console at 1, emit at 1.
  rewrite bind_eq. unfold trace. simpl.
  destruct (for_of _ _ s) as [[[[]|e] s1] t]; simpl;
    by rewrite ?app_nil_r, <- ?app_assoc.
Qed.

End WholeRun.

(** * Fetch failures and the watermark *)

(** C1, as amended. When the request for messages fails,
    [fetchOpenPhoneMessages] catches the error and hands an empty batch to
    the loop: the run calls neither the classifier nor a sink and leaves the
    set of processed ids as it was, and then completes like any run of an
    empty batch, setting the watermark to the current time. *)
Theorem fetch_failure_runs_empty_batch CONFIG w s e :
  provided (OPENPHONE_API_KEY CONFIG) = true →
  openphone_get w (lastProcessedTime s) = FetchRejects e →
  processMessages CONFIG w s =
    (Js.Ok Js.Undefined, stamped (now_end w) s,
     [ Console Starting;
       GetMessages (lastProcessedTime s);
       Console (FetchFailed e);
       Console (Found 0);
       Console Completed ]).
Proof.
  intros Hkey Hget. rewrite processMessages_eq.
  unfold fetched. rewrite fetchOpenPhoneMessages_eq, Hkey, Hget. done.
Qed.

Lemma fetch_failure_runs_empty_batch_witness :
  let w := world (FetchRejects Js.Rejected) (GptThrows Js.Rejected) true true in
  provided (OPENPHONE_API_KEY config_full) = true
  ∧ openphone_get w (lastProcessedTime fresh) = FetchRejects Js.Rejected
  ∧ processMessages config_full w fresh =
      (Js.Ok Js.Undefined, stamped (now_end w) fresh,
       [ Console Starting;
         GetMessages (lastProcessedTime fresh);
         Console (FetchFailed Js.Rejected);
         Console (Found 0);
         Console Completed ]).
Proof.
  intros w. split; [reflexivity|]. split; [reflexivity|].
  apply (fetch_failure_runs_empty_batch config_full w fresh Js.Rejected);
    reflexivity.
Defined.

(** C1, as stated, fails: with the watermark at 0 and the clock at 2000, a
    run whose fetch is rejected ends with the watermark at 2000. *)
Lemma fetch_failure_advances_watermark :
  let w := world (FetchRejects Js.Rejected) (GptThrows Js.Rejected) true true in
  openphone_get w (lastProcessedTime fresh) = FetchRejects Js.Rejected
  ∧ lastProcessedTime (final (processMessages config_full w fresh)) = 2000%Z
  ∧ lastProcessedTime (final (processMessages config_full w fresh))
      ≠ lastProcessedTime fresh.
Proof. vm_compute. split; [reflexivity|]. split; [reflexivity|discriminate]. Qed.

(** * A judgment that is [null] *)

(** C2, at the failing input. The classifier answers the first of two
    inbound messages with content that parses to [null]. Reading
    [analysis.isOrder] raises outside every [try] but the outermost one: the
    run stops there, neither message is marked processed, and the watermark
    stays where it was, so the next run fetches the same batch again. *)
Theorem null_judgment_aborts_run :
  let w := world (FetchResolves (Some [jane; hours])) (GptParsed Js.Null)
             true true in
  processMessages config_full w fresh =
    (Js.Ok Js.Undefined, fresh,
     [ Console Starting;
       GetMessages 0;
       Console (Found 2);
       Console (Processing "AC1" "+15555551234");
       PostCompletion jane;
       Console (ProcessingFailed Js.TypeError) ]).
Proof. vm_compute. reflexivity. Qed.

(** * What a run returns *)


Section Summary.

Context (CONFIG : Config) (w : World).



End Summary.


(** * The classifier's fallback *)

Section Classifier.

Context (CONFIG : Config) (w : World).

(** Reading [isOrder] raises only on [null] and [undefined]. *)
Lemma get_isOrder_defined analysis :
  analysis ≠ Js.Null → analysis ≠ Js.Undefined →
  ∃ isOrder, Js.get analysis "isOrder" = Js.Ok isOrder.
Proof. destruct analysis; simpl; eauto; done. Qed.

(** Once [analysis.isOrder] can be read, the loop body runs to its end and
    marks the message. *)
Lemma loop_body_completes message s analysis t_an isOrder :
  Message.id message ∉ processedMessageIds s →
  Message.direction message = "inbound" →
  analyzeMessageForOrder CONFIG w message s = (Js.Ok analysis, s, t_an) →
  Js.get analysis "isOrder" = Js.Ok isOrder →
  ∃ t, loop_body CONFIG w message s =
         (Js.Ok tt, marked (Message.id message) s, t).
Proof.
  intros Hin Hdir Han Hget.
  rewrite (loop_body_inbound _ _ _ _ _ _ Hin Hdir Han).
  cbv zeta. rewrite Hget. destruct (Js.truthy isOrder); eauto.
Qed.

(** C4, as amended. A message here is a [Message.t], whose fields are
    strings, so the prompt built from them before the [try] cannot raise.
    For every such message and every answer of the endpoint,
    [analyzeMessageForOrder] does not raise and does not touch the state. It
    returns [{ isOrder: false }] when the API key is missing, when the
    request fails and when the content is not valid JSON; content that is
    valid JSON is returned as parsed, whatever its shape, [null] included.
    Whenever the value returned is not [null], the run is not aborted at
    that message and the message is marked processed. *)
Theorem classifier_fallback message s :
  let returned :=
    if provided (OPENAI_API_KEY CONFIG) then
      match openai_post w message with
      | GptParsed parsed => parsed
      | GptThrows _ => not_order
      end
    else not_order in
  prompt message =
    Js.Ok {| prompt_body := Message.body message;
             prompt_from := Message.from message;
             prompt_createdAt := Message.createdAt message |}
  ∧ (∃ t_an,
       analyzeMessageForOrder CONFIG w message s = (Js.Ok returned, s, t_an))
  ∧ (Message.id message ∉ processedMessageIds s →
     Message.direction message = "inbound" →
     returned ≠ Js.Null →
     returned ≠ Js.Undefined →
     ∃ t,
       loop_body CONFIG w message s =
         (Js.Ok tt, marked (Message.id message) s, t)
       ∧ Message.id message
           ∈ processedMessageIds (marked (Message.id message) s)).
Proof.
  cbv zeta. split; [done|].
  assert (∃ t_an,
            analyzeMessageForOrder CONFIG w message s =
              (Js.Ok (if provided (OPENAI_API_KEY CONFIG) then
                        match openai_post w message with
                        | GptParsed parsed => parsed
                        | GptThrows _ => not_order
                        end
                      else not_order), s, t_an)) as [t_an Han].
  { rewrite analyzeMessageForOrder_eq.
    destruct (provided _); [destruct (openai_post _ _)|]; eauto. }
  split; [eauto|].
  intros Hin Hdir Hnull Hundef.
  destruct (get_isOrder_defined _ Hnull Hundef) as [isOrder Hget].
  destruct (loop_body_completes _ _ _ _ _ Hin Hdir Han Hget) as [t Hloop].
  exists t. split; [done|].
  simpl. apply elem_of_union_l. by apply elem_of_singleton.
Qed.

End Classifier.

Lemma classifier_fallback_witness :
  let CONFIG :=
    {| OPENPHONE_API_KEY := Some "op-key";
       OPENAI_API_KEY := None;
       GOOGLE_SHEETS_CREDENTIALS := Some "{}";
       SLACK_WEBHOOK_URL := Some "https://hooks.slack.example/T0";
       GOOGLE_SHEET_ID := Some "sheet-1" |} in
  let w := world (FetchResolves (Some [hours])) (GptParsed Js.Null)
             true true in
  (Message.id hours ∉ processedMessageIds fresh)
  ∧ Message.direction hours = "inbound"
  ∧ not_order ≠ Js.Null
  ∧ not_order ≠ Js.Undefined
  ∧ (∃ t_an,
       analyzeMessageForOrder CONFIG w hours fresh
         = (Js.Ok not_order, fresh, t_an))
  ∧ (∃ t,
       loop_body CONFIG w hours fresh = (Js.Ok tt, marked "AC2" fresh, t)
       ∧ Message.id hours ∈ processedMessageIds (marked "AC2" fresh))
  ∧ ∃ t_an,
      analyzeMessageForOrder config_full w hours fresh
        = (Js.Ok Js.Null, fresh, t_an).
Proof.
  intros CONFIG w.
  assert (Message.id hours ∉ processedMessageIds fresh) as Hnew
    by apply not_elem_of_empty.
  assert (not_order ≠ Js.Null) as Hnull by discriminate.
  assert (not_order ≠ Js.Undefined) as Hundef by discriminate.
  do 4 (split; [done|]).
  destruct (classifier_fallback CONFIG w hours fresh) as (_ & Han & Hloop).
  destruct (classifier_fallback config_full w hours fresh)
    as (_ & Han_null & _).
  split; [exact Han|]. split; [exact (Hloop Hnew eq_refl Hnull Hundef)|].
  exact Han_null.
Defined.

(** C4, as stated, fails: content that is valid JSON but has neither
    contracted shape (here an object with [isOrder] alone) is not replaced by
    [{ isOrder: false }]; the classifier returns it as parsed. *)
Lemma misshapen_judgment_is_returned_as_parsed :
  let w := world (FetchResolves (Some [jane])) (GptParsed bare_order)
             true true in
  result (analyzeMessageForOrder config_full w jane fresh) = Js.Ok bare_order
  ∧ bare_order ≠ not_order.
Proof. split; [reflexivity|discriminate]. Qed.

(** * What the sinks send *)

Ltac exc_inv H :=
  unfold mbind, mret, Js.exc_bind, Js.exc_ret, Js.bind in H;
  repeat (case_match; try discriminate);
  simplify_eq.

Section Sinks.

Context (CONFIG : Config) (w : World).

Lemma ledger_row_inv timestamp orderData message row :
  ledger_row timestamp orderData message = Js.Ok row →
  ∃ customerName customerPhone products productsJoined quantities
    quantitiesJoined totalAmount specialRequests urgency,
    Js.get orderData "customerName" = Js.Ok customerName
    ∧ Js.get orderData "customerPhone" = Js.Ok customerPhone
    ∧ Js.get orderData "products" = Js.Ok products
    ∧ Js.join products ", " = Js.Ok productsJoined
    ∧ Js.get orderData "quantities" = Js.Ok quantities
    ∧ Js.join quantities ", " = Js.Ok quantitiesJoined
    ∧ Js.get orderData "totalAmount" = Js.Ok totalAmount
    ∧ Js.get orderData "specialRequests" = Js.Ok specialRequests
    ∧ Js.get orderData "urgency" = Js.Ok urgency
    ∧ row =
        [ Js.Str timestamp; customerName; customerPhone;
          Js.Str productsJoined; Js.Str quantitiesJoined; totalAmount;
          specialRequests; urgency;
          Js.Str (Message.body message);
          Js.Str (Message.id message);
          Js.Str "Pending" ].
Proof.
  unfold ledger_row. intros Hrow. exc_inv Hrow.
  repeat eexists; eauto.
Qed.

Lemma slack_message_id orderData message payload :
  slack_message w orderData message = Js.Ok payload →
  messageId payload = Message.id message.
Proof. unfold slack_message. intros Hmsg. by exc_inv Hmsg. Qed.

End Sinks.

(** * Fan-out to the two sinks *)

Section FanOut.

Context (CONFIG : Config) (w : World).

Lemma sendSlackNotification_ignores_ledger answer orderData message s :
  sendSlackNotification CONFIG (with_sheets_append answer w)
    orderData message s
  = sendSlackNotification CONFIG w orderData message s.
Proof. by rewrite !sendSlackNotification_eq. Qed.

Lemma logOrderToSheet_ignores_slack answer orderData message s :
  logOrderToSheet CONFIG (with_slack_post answer w) orderData message s
  = logOrderToSheet CONFIG w orderData message s.
Proof. by rewrite !logOrderToSheet_eq. Qed.

Lemma for_of_cons {A} (x : A) rest body s :
  for_of (x :: rest) body s =
    match body x s with
    | (Js.Ok _, s1, t1) =>
        let '(r, s2, t2) := for_of rest body s1 in (r, s2, t1 ++ t2)
    | (Js.Throw e, s1, t1) => (Js.Throw e, s1, t1)
    end.
Proof. reflexivity. Qed.

(** C5. For a detected order both sinks are attempted, the ledger first and
    Slack second, and what each one does is decided by its own configuration,
    by the judgment and by its own endpoint alone. The ledger call sends the
    append request whenever the ledger is configured and the row can be
    built; the Slack call sends the post whenever the webhook is set and the
    message can be built. Neither call raises or changes the state, so
    neither can keep the other from being made: the Slack post is in the
    trace of the loop body however the ledger answers, and the append is
    there however Slack answers. The message is then marked processed and
    the loop goes on with the rest of the batch. *)
Theorem sinks_attempted_independently message s analysis t_an isOrder :
  Message.id message ∉ processedMessageIds s →
  Message.direction message = "inbound" →
  analyzeMessageForOrder CONFIG w message s = (Js.Ok analysis, s, t_an) →
  Js.get analysis "isOrder" = Js.Ok isOrder →
  Js.truthy isOrder = true →
  let id := Message.id message in
  let url := env_string (SLACK_WEBHOOK_URL CONFIG) in
  let timestamp :=
    toLocaleString w "en-US" TIMEZONE (now_ledger w message) in
  let sheet := logOrderToSheet CONFIG w analysis message s in
  let slack := sendSlackNotification CONFIG w analysis message s in
  let t_message :=
    Console (Processing id (Message.from message)) :: t_an
      ++ [Console (OrderDetected id)] ++ trace sheet ++ trace slack
      ++ [Console (if succeeded sheet && succeeded slack
                   then OrderProcessed id
                   else OrderProcessedWithIssues id)] in
  sheet =
    (if sheets s && provided (GOOGLE_SHEET_ID CONFIG) then
       match ledger_row timestamp analysis message with
       | Js.Ok row =>
           if sheets_append w (append_request CONFIG row) then
             (Js.Ok true, s,
              [AppendValues (append_request CONFIG row); Console OrderLogged])
           else
             (Js.Ok false, s,
              [AppendValues (append_request CONFIG row);
               Console (SheetLogFailed Js.Rejected)])
       | Js.Throw e => (Js.Ok false, s, [Console (SheetLogFailed e)])
       end
     else (Js.Ok false, s, [Console SheetsNotConfigured]))
  ∧ slack =
      (if provided (SLACK_WEBHOOK_URL CONFIG) then
         match slack_message w analysis message with
         | Js.Ok payload =>
             if slack_post w url payload then
               (Js.Ok true, s, [PostWebhook url payload; Console SlackSent])
             else
               (Js.Ok false, s,
                [PostWebhook url payload; Console (SlackFailed Js.Rejected)])
         | Js.Throw e => (Js.Ok false, s, [Console (SlackFailed e)])
         end
       else (Js.Ok false, s, [Console SlackUrlMissing]))
  ∧ (∀ answer,
       sendSlackNotification CONFIG (with_sheets_append answer w)
         analysis message s = slack)
  ∧ (∀ answer,
       logOrderToSheet CONFIG (with_slack_post answer w) analysis message s
       = sheet)
  ∧ loop_body CONFIG w message s = (Js.Ok tt, marked id s, t_message)
  ∧ (∀ rest,
       for_of (message :: rest) (loop_body CONFIG w) s =
         let '(r, s', t_rest) :=
           for_of rest (loop_body CONFIG w) (marked id s) in
         (r, s', t_message ++ t_rest))
  ∧ (∀ answer payload,
       provided (SLACK_WEBHOOK_URL CONFIG) = true →
       slack_message w analysis message = Js.Ok payload →
       PostWebhook url payload
         ∈ trace (loop_body CONFIG (with_sheets_append answer w) message s))
  ∧ (∀ answer row,
       sheets s = true →
       provided (GOOGLE_SHEET_ID CONFIG) = true →
       ledger_row timestamp analysis message = Js.Ok row →
       AppendValues (append_request CONFIG row)
         ∈ trace (loop_body CONFIG (with_slack_post answer w) message s)).
Proof.
  intros Hin Hdir Han Hget Htruthy. cbv zeta.
  split; [apply logOrderToSheet_eq|].
  split; [apply sendSlackNotification_eq|].
  split; [intros; apply sendSlackNotification_ignores_ledger|].
  split; [intros; apply logOrderToSheet_ignores_slack|].
  assert (∀ w',
            analyzeMessageForOrder CONFIG w' message s
              = (Js.Ok analysis, s, t_an) →
            loop_body CONFIG w' message s =
              (Js.Ok tt, marked (Message.id message) s,
               Console (Processing (Message.id message)
                          (Message.from message)) :: t_an
                 ++ [Console (OrderDetected (Message.id message))]
                 ++ trace (logOrderToSheet CONFIG w' analysis message s)
                 ++ trace (sendSlackNotification CONFIG w' analysis message s)
                 ++ [Console
                       (if succeeded
                             (logOrderToSheet CONFIG w' analysis message s)
                           && succeeded
                                (sendSlackNotification CONFIG w' analysis
                                   message s)
                        then OrderProcessed (Message.id message)
                        else OrderProcessedWithIssues (Message.id message))]))
    as Hbody.
  { intros w' Han'.
    rewrite (loop_body_inbound _ _ _ _ _ _ Hin Hdir Han').
    cbv zeta. rewrite Hget, Htruthy. by rewrite <- ?app_assoc. }
  split; [by apply Hbody|].
  split; [intros rest; by rewrite for_of_cons, (Hbody w Han)|].
  split.
  - intros answer payload Hurl Hpayload.
    rewrite (Hbody (with_sheets_append answer w) Han).
    rewrite sendSlackNotification_ignores_ledger, sendSlackNotification_eq,
      Hurl, Hpayload.
    unfold trace at 1. cbn [snd]. apply elem_of_cons. right.
    rewrite !elem_of_app. right. right. right. left.
    cbv zeta. destruct (slack_post _ _ _); unfold trace; simpl;
      by apply elem_of_cons; left.
  - intros answer row Hsheets Hid Hrow.
    rewrite (Hbody (with_slack_post answer w) Han).
    rewrite logOrderToSheet_ignores_slack, logOrderToSheet_eq,
      Hsheets, Hid, Hrow.
    unfold trace at 1. cbn [snd]. apply elem_of_cons. right.
    rewrite !elem_of_app. right. right. left.
    cbn [andb]. destruct (sheets_append _ _); unfold trace; simpl;
      by apply elem_of_cons; left.
Qed.

End FanOut.

Lemma sinks_attempted_independently_witness :
  let w := world (FetchResolves (Some [jane; hours])) (GptParsed jane_order)
             false true in
  let row :=
    [ Js.Str "6/1/2025, 10:00:00 AM"; Js.Str "Jane"; Js.Str "555-1234";
      Js.Str "oysters"; Js.Str "2 dozen"; Js.Str "TBD";
      Js.Str "pickup tomorrow"; Js.Str "normal";
      Js.Str "2 dozen oysters for pickup tomorrow, this is Jane";
      Js.Str "AC1"; Js.Str "Pending" ] in
  let payload :=
    {| emoji := MarkNormal;
       customer := "Jane";
       phone := "555-1234";
       products := "oysters";
       quantities := "2 dozen";
       totalAmount := "TBD";
       urgency := "NORMAL";
       specialRequests := "pickup tomorrow";
       originalBody := "2 dozen oysters for pickup tomorrow, this is Jane";
       received := "6/1/2025, 10:00:00 AM";
       messageId := "AC1" |} in
  (Message.id jane ∉ processedMessageIds fresh)
  ∧ Message.direction jane = "inbound"
  ∧ analyzeMessageForOrder config_full w jane fresh
      = (Js.Ok jane_order, fresh, [PostCompletion jane])
  ∧ Js.get jane_order "isOrder" = Js.Ok (Js.Bool true)
  ∧ Js.truthy (Js.Bool true) = true
  ∧ logOrderToSheet config_full w jane_order jane fresh =
      (Js.Ok false, fresh,
       [ AppendValues (append_request config_full row);
         Console (SheetLogFailed Js.Rejected) ])
  ∧ sendSlackNotification config_full w jane_order jane fresh =
      (Js.Ok true, fresh,
       [ PostWebhook "https://hooks.slack.example/T0" payload;
         Console SlackSent ])
  ∧ loop_body config_full w jane fresh =
      (Js.Ok tt, marked "AC1" fresh,
       [ Console (Processing "AC1" "+15555551234");
         PostCompletion jane;
         Console (OrderDetected "AC1");
         AppendValues (append_request config_full row);
         Console (SheetLogFailed Js.Rejected);
         PostWebhook "https://hooks.slack.example/T0" payload;
         Console SlackSent;
         Console (OrderProcessedWithIssues "AC1") ])
  ∧ PostWebhook "https://hooks.slack.example/T0" payload
      ∈ trace (loop_body config_full w jane fresh)
  ∧ AppendValues (append_request config_full row)
      ∈ trace (loop_body config_full w jane fresh).
Proof.
  intros w row payload.
  assert (Message.id jane ∉ processedMessageIds fresh) as Hnew
    by apply not_elem_of_empty.
  do 5 (split; [done|]).
  destruct (sinks_attempted_independently config_full w jane fresh jane_order
              [PostCompletion jane] (Js.Bool true)
              Hnew eq_refl eq_refl eq_refl eq_refl)
    as (Hsheet & Hslack & _ & _ & Hbody & _ & Hpost & Happend).
  split; [exact Hsheet|]. split; [exact Hslack|]. split; [exact Hbody|].
  split.
  - exact (Hpost (λ _, false) payload eq_refl eq_refl).
  - exact (Happend (λ _ _, true) row eq_refl eq_refl eq_refl).
Defined.

(** * Which messages the outgoing calls are about *)

Section Calls.

Context (CONFIG : Config) (w : World).

Lemma analyzeMessageForOrder_about message s ev id :
  ev ∈ trace (analyzeMessageForOrder CONFIG w message s) →
  about ev = Some id → id = Message.id message.
Proof.
  rewrite analyzeMessageForOrder_eq.
  destruct (provided _); [destruct (openai_post _ _)|];
    unfold trace; simpl; intros Hev Habout;
    set_unfold; destruct_or?; simplify_eq; simpl in *; by simplify_eq.
Qed.

Lemma logOrderToSheet_about orderData message s ev id :
  ev ∈ trace (logOrderToSheet CONFIG w orderData message s) →
  about ev = Some id → id = Message.id message.
Proof.
  rewrite logOrderToSheet_eq.
  destruct (_ && _); [|unfold trace; simpl; intros; set_unfold;
                       destruct_or?; by simplify_eq].
  destruct (ledger_row _ _ _) as [row|e] eqn:Hrow;
    [|unfold trace; simpl; intros; set_unfold; destruct_or?; by simplify_eq].
  destruct (ledger_row_inv _ _ _ _ Hrow)
    as (? & ? & ? & ? & ? & ? & ? & ? & ? & Hfields).
  do 9 destruct Hfields as [_ Hfields]. subst row.
  destruct (sheets_append _ _); unfold trace; simpl; intros Hev Habout;
    set_unfold; destruct_or?; simplify_eq; simpl in *; by simplify_eq.
Qed.

Lemma sendSlackNotification_about orderData message s ev id :
  ev ∈ trace (sendSlackNotification CONFIG w orderData message s) →
  about ev = Some id → id = Message.id message.
Proof.
  rewrite sendSlackNotification_eq.
  destruct (provided _); [|unfold trace; simpl; intros; set_unfold;
                           destruct_or?; by simplify_eq].
  cbv zeta.
  destruct (slack_message _ _ _) as [payload|e] eqn:Hmsg;
    [|unfold trace; simpl; intros; set_unfold; destruct_or?; by simplify_eq].
  apply slack_message_id in Hmsg.
  destruct (slack_post _ _ _); unfold trace; simpl; intros Hev Habout;
    set_unfold; destruct_or?; simplify_eq; simpl in *; by simplify_eq.
Qed.

(** A call made while the loop body handles [message] is about [message],
    which then is inbound and was not in the set of processed ids. *)
Lemma loop_body_about message s ev id :
  ev ∈ trace (loop_body CONFIG w message s) →
  about ev = Some id →
  id = Message.id message
  ∧ (Message.id message ∉ processedMessageIds s)
  ∧ Message.direction message = "inbound".
Proof.
  destruct (decide (Message.id message ∈ processedMessageIds s)) as [Hin|Hin].
  { rewrite loop_body_processed by done. unfold trace. simpl.
    by intros ?%elem_of_nil. }
  destruct (decide (Message.direction message = "inbound")) as [Hdir|Hdir].
  2:{ rewrite loop_body_not_inbound by done. unfold trace. simpl.
      by intros ?%elem_of_nil. }
  intros Hev Habout. split; [|done].
  destruct (analyzeMessageForOrder_returns CONFIG w message s)
    as (analysis & t_an & Han).
  pose proof (analyzeMessageForOrder_about message s) as Han_about.
  rewrite Han in Han_about. unfold trace in Han_about. simpl in Han_about.
  pose proof (logOrderToSheet_about analysis message s) as Hsheet_about.
  pose proof (sendSlackNotification_about analysis message s)
    as Hslack_about.
  rewrite (loop_body_inbound _ _ _ _ _ _ Hin Hdir Han) in Hev.
  cbv zeta in Hev.
  set (t_sheet := trace (logOrderToSheet CONFIG w analysis message s)) in *.
  set (t_slack := trace (sendSlackNotification CONFIG w analysis message s))
    in *.
  destruct (Js.get analysis "isOrder") as [isOrder|e];
    [destruct (Js.truthy isOrder)|];
    unfold trace in Hev; simpl in Hev; set_unfold in Hev;
    destruct_or!; subst; eauto; try done.
Qed.

(** No call of a batch is about an id that was processed before the batch
    was started; every call is about an inbound message of the batch. *)
Lemma for_of_about batch s ev id :
  ev ∈ trace (for_of batch (loop_body CONFIG w) s) →
  about ev = Some id →
  (id ∉ processedMessageIds s)
  ∧ ∃ message, message ∈ batch ∧ Message.id message = id
               ∧ Message.direction message = "inbound".
Proof.
  revert s. induction batch as [|message rest IH]; intros s Hev Habout.
  { unfold trace in Hev. simpl in Hev. by apply elem_of_nil in Hev. }
  rewrite for_of_cons in Hev.
  pose proof (loop_body_about message s ev id) as Hhead.
  pose proof (loop_body_grows CONFIG w message s) as Hgrows.
  destruct (loop_body CONFIG w message s) as [[[[]|e] s1] t1].
  - specialize (IH s1).
    destruct (for_of rest (loop_body CONFIG w) s1) as [[r s2] t2].
    unfold trace, grows, final in *. simpl in *.
    apply elem_of_app in Hev as [Hev|Hev].
    + destruct (Hhead Hev Habout) as (-> & ? & ?).
      split; [done|]. exists message. by rewrite elem_of_cons; auto.
    + destruct (IH Hev Habout) as (Hfresh & m & ? & ? & ?).
      split; [by intros ?; apply Hfresh, Hgrows|].
      exists m. by rewrite elem_of_cons; auto.
  - unfold trace in *. simpl in *.
    destruct (Hhead Hev Habout) as (-> & ? & ?).
    split; [done|]. exists message. by rewrite elem_of_cons; auto.
Qed.

End Calls.

(** * Batches that run to their end, and the one way they do not *)

Section Batches.

Context (CONFIG : Config) (w : World).

(** Whenever the loop body returns, the id of its message is in the set. *)
Lemma loop_body_marks message s s1 t1 :
  loop_body CONFIG w message s = (Js.Ok tt, s1, t1) →
  processedMessageIds s1 = {[Message.id message]} ∪ processedMessageIds s.
Proof.
  destruct (decide (Message.id message ∈ processedMessageIds s)) as [Hin|Hin].
  { rewrite loop_body_processed by done. intros [= <- _].
    apply set_eq. intros id. rewrite elem_of_union, elem_of_singleton.
    split; [by right|by intros [->|?]]. }
  destruct (decide (Message.direction message = "inbound")) as [Hdir|Hdir].
  2:{ rewrite loop_body_not_inbound by done. by intros [= <- _]. }
  destruct (analyzeMessageForOrder_returns CONFIG w message s)
    as (analysis & t_an & Han).
  rewrite (loop_body_inbound _ _ _ _ _ _ Hin Hdir Han). cbv zeta.
  destruct (Js.get analysis "isOrder") as [isOrder|e]; [|done].
  destruct (Js.truthy isOrder); by intros [= <- _].
Qed.

(** The loop body raises in one case only: the message is new and inbound,
    and the classifier's content parsed to [null] (or to [undefined], which
    [JSON.parse] never gives). Nothing is marked then. *)
Lemma loop_body_raises message s e s1 t1 :
  loop_body CONFIG w message s = (Js.Throw e, s1, t1) →
  e = Js.TypeError
  ∧ s1 = s
  ∧ (Message.id message ∉ processedMessageIds s)
  ∧ Message.direction message = "inbound"
  ∧ provided (OPENAI_API_KEY CONFIG) = true
  ∧ (openai_post w message = GptParsed Js.Null
     ∨ openai_post w message = GptParsed Js.Undefined).
Proof.
  destruct (decide (Message.id message ∈ processedMessageIds s)) as [Hin|Hin].
  { by rewrite loop_body_processed. }
  destruct (decide (Message.direction message = "inbound")) as [Hdir|Hdir].
  2:{ by rewrite loop_body_not_inbound. }
  destruct (analyzeMessageForOrder_returns CONFIG w message s)
    as (analysis & t_an & Han).
  rewrite (loop_body_inbound _ _ _ _ _ _ Hin Hdir Han). cbv zeta.
  rewrite analyzeMessageForOrder_eq in Han.
  destruct (provided _);
    [destruct (openai_post _ _) as [e'|parsed]|]; simplify_eq; try done.
  destruct analysis; simpl; try (destruct (Js.truthy _)); try done;
    intros [= <- <- _]; auto 10.
Qed.

(** A batch that runs to its end leaves every one of its ids in the set,
    and nothing else new. *)
Lemma for_of_marks batch s s' t :
  for_of batch (loop_body CONFIG w) s = (Js.Ok tt, s', t) →
  processedMessageIds s' =
    list_to_set (Message.id <$> batch) ∪ processedMessageIds s.
Proof.
  revert s t. induction batch as [|message rest IH]; intros s t.
  { intros [= <- _]. simpl. apply set_eq. intros id.
    rewrite elem_of_union, elem_of_empty. tauto. }
  rewrite for_of_cons.
  destruct (loop_body CONFIG w message s) as [[[[]|e] s1] t1] eqn:Hbody;
    [|done].
  destruct (for_of rest (loop_body CONFIG w) s1) as [[[[]|e] s2] t2] eqn:Hrest;
    [|done].
  intros [= <- _]. rewrite (IH _ _ Hrest), (loop_body_marks _ _ _ _ Hbody).
  simpl. apply set_eq. intros id.
  rewrite !elem_of_union, elem_of_singleton. tauto.
Qed.






End Batches.

(** * Skipped messages *)

Section Skips.

Context (CONFIG : Config) (w : World).

(** C6. A message whose id is already in the set of processed ids when the
    loop reaches it is skipped: the loop body leaves the state as it is and
    leaves no trace, so no classifier request, ledger append or Slack
    message is made for it. The same holds for whatever batch is processed
    from that state on: none of its calls is about that id. *)
Theorem processed_message_is_skipped message s :
  Message.id message ∈ processedMessageIds s →
  loop_body CONFIG w message s = (Js.Ok tt, s, [])
  ∧ ∀ batch ev,
      ev ∈ trace (for_of batch (loop_body CONFIG w) s) →
      about ev ≠ Some (Message.id message).
Proof.
  intros Hin. split; [by apply loop_body_processed|].
  intros batch ev Hev Habout.
  by destruct (for_of_about CONFIG w batch s ev _ Hev Habout) as [Hfresh _].
Qed.


End Skips.

Lemma processed_message_is_skipped_witness :
  let w := world (FetchResolves (Some [jane])) (GptParsed jane_order)
             true true in
  let s := marked "AC1" fresh in
  Message.id jane ∈ processedMessageIds s
  ∧ loop_body config_full w jane s = (Js.Ok tt, s, [])
  ∧ ∀ batch ev,
      ev ∈ trace (for_of batch (loop_body config_full w) s) →
      about ev ≠ Some (Message.id jane).
Proof.
  intros w s.
  assert (Message.id jane ∈ processedMessageIds s) as Hin.
  { apply elem_of_union_l. by apply elem_of_singleton. }
  split; [exact Hin|].
  exact (processed_message_is_skipped config_full w jane s Hin).
Defined.


(** * The ledger row *)

(** C8. When [logOrderToSheet] returns [true] it has made one append
    request, for one row of eleven cells: the current time printed for the
    configured time zone, the customer's name and phone as the judgment has
    them, the products and the quantities each joined into one string, the
    total amount, the special requests, the urgency, the body and the id of
    the message, and the literal [Pending]. *)
Theorem ledger_row_layout CONFIG w orderData message s s' t :
  logOrderToSheet CONFIG w orderData message s = (Js.Ok true, s', t) →
  ∃ customerName customerPhone products productsJoined quantities
    quantitiesJoined totalAmount specialRequests urgency,
    Js.get orderData "customerName" = Js.Ok customerName
    ∧ Js.get orderData "customerPhone" = Js.Ok customerPhone
    ∧ Js.get orderData "products" = Js.Ok products
    ∧ Js.join products ", " = Js.Ok productsJoined
    ∧ Js.get orderData "quantities" = Js.Ok quantities
    ∧ Js.join quantities ", " = Js.Ok quantitiesJoined
    ∧ Js.get orderData "totalAmount" = Js.Ok totalAmount
    ∧ Js.get orderData "specialRequests" = Js.Ok specialRequests
    ∧ Js.get orderData "urgency" = Js.Ok urgency
    ∧ t =
        [ AppendValues
            {| spreadsheetId := env_string (GOOGLE_SHEET_ID CONFIG);
               range := "Orders!A:K";
               valueInputOption := "USER_ENTERED";
               values :=
                 [ [ Js.Str (toLocaleString w "en-US" TIMEZONE
                               (now_ledger w message));
                     customerName; customerPhone;
                     Js.Str productsJoined; Js.Str quantitiesJoined;
                     totalAmount; specialRequests; urgency;
                     Js.Str (Message.body message);
                     Js.Str (Message.id message);
                     Js.Str "Pending" ] ] |};
          Console OrderLogged ].
Proof.
  rewrite logOrderToSheet_eq. intros Hlog.
  destruct (_ && _); [|discriminate].
  destruct (ledger_row _ _ _) as [row|e] eqn:Hrow; [|discriminate].
  destruct (sheets_append _ _); [|discriminate].
  destruct (ledger_row_inv _ _ _ _ Hrow)
    as (customerName & customerPhone & products & productsJoined
        & quantities & quantitiesJoined & totalAmount & specialRequests
        & urgency & ? & ? & ? & ? & ? & ? & ? & ? & ? & ->).
  exists customerName, customerPhone, products, productsJoined, quantities,
    quantitiesJoined, totalAmount, specialRequests, urgency.
  repeat (split; [done|]). unfold append_request in Hlog. by simplify_eq.
Qed.

Lemma ledger_row_layout_witness :
  let w := world (FetchResolves (Some [jane])) (GptParsed jane_order)
             true true in
  logOrderToSheet config_full w jane_order jane fresh =
    (Js.Ok true, fresh,
     [ AppendValues
         {| spreadsheetId := "sheet-1";
            range := "Orders!A:K";
            valueInputOption := "USER_ENTERED";
            values :=
              [ [ Js.Str "6/1/2025, 10:00:00 AM";
                  Js.Str "Jane"; Js.Str "555-1234";
                  Js.Str "oysters"; Js.Str "2 dozen";
                  Js.Str "TBD"; Js.Str "pickup tomorrow"; Js.Str "normal";
                  Js.Str "2 dozen oysters for pickup tomorrow, this is Jane";
                  Js.Str "AC1";
                  Js.Str "Pending" ] ] |};
       Console OrderLogged ])
  ∧ ∃ customerName customerPhone products productsJoined quantities
      quantitiesJoined totalAmount specialRequests urgency,
      Js.get jane_order "customerName" = Js.Ok customerName
      ∧ Js.get jane_order "customerPhone" = Js.Ok customerPhone
      ∧ Js.get jane_order "products" = Js.Ok products
      ∧ Js.join products ", " = Js.Ok productsJoined
      ∧ Js.get jane_order "quantities" = Js.Ok quantities
      ∧ Js.join quantities ", " = Js.Ok quantitiesJoined
      ∧ Js.get jane_order "totalAmount" = Js.Ok totalAmount
      ∧ Js.get jane_order "specialRequests" = Js.Ok specialRequests
      ∧ Js.get jane_order "urgency" = Js.Ok urgency
      ∧ [ AppendValues
            {| spreadsheetId := "sheet-1";
               range := "Orders!A:K";
               valueInputOption := "USER_ENTERED";
               values :=
                 [ [ Js.Str "6/1/2025, 10:00:00 AM";
                     Js.Str "Jane"; Js.Str "555-1234";
                     Js.Str "oysters"; Js.Str "2 dozen";
                     Js.Str "TBD"; Js.Str "pickup tomorrow";
                     Js.Str "normal";
                     Js.Str
                       "2 dozen oysters for pickup tomorrow, this is Jane";
                     Js.Str "AC1";
                     Js.Str "Pending" ] ] |};
          Console OrderLogged ] =
        [ AppendValues
            {| spreadsheetId := env_string (GOOGLE_SHEET_ID config_full);
               range := "Orders!A:K";
               valueInputOption := "USER_ENTERED";
               values :=
                 [ [ Js.Str (toLocaleString w "en-US" TIMEZONE
                               (now_ledger w jane));
                     customerName; customerPhone;
                     Js.Str productsJoined; Js.Str quantitiesJoined;
                     totalAmount; specialRequests; urgency;
                     Js.Str (Message.body jane);
                     Js.Str (Message.id jane);
                     Js.Str "Pending" ] ] |};
          Console OrderLogged ].
Proof.
  intros w.
  assert (logOrderToSheet config_full w jane_order jane fresh =
            (Js.Ok true, fresh,
             [ AppendValues
                 {| spreadsheetId := "sheet-1";
                    range := "Orders!A:K";
                    valueInputOption := "USER_ENTERED";
                    values :=
                      [ [ Js.Str "6/1/2025, 10:00:00 AM";
                          Js.Str "Jane"; Js.Str "555-1234";
                          Js.Str "oysters"; Js.Str "2 dozen";
                          Js.Str "TBD"; Js.Str "pickup tomorrow";
                          Js.Str "normal";
                          Js.Str
                            "2 dozen oysters for pickup tomorrow, this is Jane";
                          Js.Str "AC1";
                          Js.Str "Pending" ] ] |};
               Console OrderLogged ])) as Hrun by reflexivity.
  split; [exact Hrun|].
  exact (ledger_row_layout config_full w jane_order jane fresh fresh _ Hrun).
Defined.

(** * The set of processed ids over a process lifetime *)

(** C9. No method of the service removes an id from the set of processed
    ids: over any sequence of invocations, whatever the world answers and
    however each invocation ends, the set before is included in the set
    after. *)
Theorem processed_ids_never_shrink CONFIG calls s :
  processedMessageIds s ⊆ processedMessageIds (lifetime CONFIG calls s).
Proof.
  revert s. induction calls as [|[w op] rest IH]; intros s; simpl.
  - done.
  - etrans; [apply (exec_grows CONFIG w op s)|apply IH].
Qed.

(** * The sinks never raise *)

(** C10. For every judgment and message, well formed or not, each sink
    returns a boolean and leaves the state alone. [logOrderToSheet] returns
    [true] exactly when the ledger is configured, the row could be built and
    the append went through; [sendSlackNotification] returns [true] exactly
    when the webhook is configured, the message could be built and the post
    went through. Every error raised on the way is turned into [false]. *)
Theorem sinks_never_raise CONFIG w orderData message s :
  (∃ success t,
     logOrderToSheet CONFIG w orderData message s = (Js.Ok success, s, t)
     ∧ (success = true ↔
        sheets s = true
        ∧ provided (GOOGLE_SHEET_ID CONFIG) = true
        ∧ ∃ row,
            ledger_row
              (toLocaleString w "en-US" TIMEZONE (now_ledger w message))
              orderData message = Js.Ok row
            ∧ sheets_append w (append_request CONFIG row) = true))
  ∧ (∃ success t,
       sendSlackNotification CONFIG w orderData message s
         = (Js.Ok success, s, t)
       ∧ (success = true ↔
          provided (SLACK_WEBHOOK_URL CONFIG) = true
          ∧ ∃ payload,
              slack_message w orderData message = Js.Ok payload
              ∧ slack_post w (env_string (SLACK_WEBHOOK_URL CONFIG)) payload
                  = true)).
Proof.
  split.
  - rewrite logOrderToSheet_eq.
    destruct (sheets s), (provided (GOOGLE_SHEET_ID CONFIG)); simpl;
      try (eexists _, _; split; [done|]; split;
           [done | by intros (? & ? & _)]).
    destruct (ledger_row _ _ _) as [row|e].
    + destruct (sheets_append _ _) eqn:Happend;
        eexists _, _; (split; [done|]); split; try done.
      * intros _. eauto.
      * intros (_ & _ & row' & ? & ?). congruence.
    + eexists _, _. split; [done|]. split; [done|].
      by intros (_ & _ & ? & ? & _).
  - rewrite sendSlackNotification_eq.
    destruct (provided (SLACK_WEBHOOK_URL CONFIG)); simpl;
      [|eexists _, _; split; [done|]; split; [done | by intros (? & _)]].
    destruct (slack_message _ _ _) as [payload|e].
    + destruct (slack_post _ _ _) eqn:Hpost;
        eexists _, _; (split; [done|]); split; try done.
      * intros _. eauto.
      * intros (_ & payload' & ? & ?). congruence.
    + eexists _, _. split; [done|]. split; [done|].
      by intros (_ & ? & ? & _).
Qed.

(** * Whole runs *)

Section Runs.

Context (CONFIG : Config) (w : World).

(** A new service has processed nothing. *)
Lemma boot_starts_empty : processedMessageIds (boot CONFIG w).1 = ∅.
Proof.
  unfold boot, initializeGoogleSheets. run_unfold.
  destruct (provided _); simpl; [|done].
  by destruct (sheets_client _ _).
Qed.

(** A run whose loop reaches the end of the fetched batch has every fetched
    id in the set, and the watermark at the time the run ended. *)
Lemma processMessages_completed s s' t :
  for_of (fetched CONFIG w s) (loop_body CONFIG w) s = (Js.Ok tt, s', t) →
  final (processMessages CONFIG w s) = stamped (now_end w) s'
  ∧ processedMessageIds s' =
      list_to_set (Message.id <$> fetched CONFIG w s) ∪ processedMessageIds s.
Proof.
  intros Hloop. rewrite processMessages_eq. cbv zeta. rewrite Hloop.
  split; [done|]. by eapply for_of_marks.
Qed.

(** A run whose loop raises keeps what was marked before, and the
    watermark it started with. *)
Lemma processMessages_aborted s e s' t :
  for_of (fetched CONFIG w s) (loop_body CONFIG w) s = (Js.Throw e, s', t) →
  final (processMessages CONFIG w s) = s'
  ∧ lastProcessedTime s' = lastProcessedTime s.
Proof.
  intros Hloop. rewrite processMessages_eq. cbv zeta. rewrite Hloop.
  split; [done|].
  assert (∀ batch s0 r s1 t1,
            for_of batch (loop_body CONFIG w) s0 = (r, s1, t1) →
            lastProcessedTime s1 = lastProcessedTime s0) as Hkeeps.
  { intros batch. induction batch as [|message rest IH]; intros s0 r s1 t1.
    { by intros [= _ <- _]. }
    rewrite for_of_cons.
    destruct (loop_body_final CONFIG w message s0) as [Hsame|Hmarked];
      destruct (loop_body CONFIG w message s0) as [[[[]|e0] s2] t2];
      unfold final in *; simpl in *; subst s2;
      try (by intros [= _ <- _]);
      destruct (for_of rest _ _) as [[r' s3] t3] eqn:Hrest;
      intros [= _ <- _]; by rewrite (IH _ _ _ _ Hrest). }
  by eapply Hkeeps.
Qed.

End Runs.

(** * Scenarios *)

(** An order and one of our own replies: the order goes to both sinks, the
    reply is marked without a call, the watermark moves to the clock. *)
Example scenario_basic_order :
  let w := world (FetchResolves (Some [jane; our_reply]))
             (GptParsed jane_order) true true in
  final (processMessages config_full w fresh) =
    stamped 2000 (marked "AC3" (marked "AC1" fresh))
  ∧ filter (λ ev, bool_decide (is_Some (about ev)))
      (trace (processMessages config_full w fresh)) =
      [ PostCompletion jane;
        AppendValues
          (append_request config_full
             [ Js.Str "6/1/2025, 10:00:00 AM"; Js.Str "Jane";
               Js.Str "555-1234"; Js.Str "oysters"; Js.Str "2 dozen";
               Js.Str "TBD"; Js.Str "pickup tomorrow"; Js.Str "normal";
               Js.Str "2 dozen oysters for pickup tomorrow, this is Jane";
               Js.Str "AC1"; Js.Str "Pending" ]);
        PostWebhook "https://hooks.slack.example/T0"
          {| emoji := MarkNormal;
             customer := "Jane";
             phone := "555-1234";
             products := "oysters";
             quantities := "2 dozen";
             totalAmount := "TBD";
             urgency := "NORMAL";
             specialRequests := "pickup tomorrow";
             originalBody :=
               "2 dozen oysters for pickup tomorrow, this is Jane";
             received := "6/1/2025, 10:00:00 AM";
             messageId := "AC1" |} ].
Proof. by vm_compute. Qed.

(** A question that is no order: classified, marked, no sink called. *)
Example scenario_non_order :
  let w := world (FetchResolves (Some [hours])) (GptParsed not_order)
             true true in
  processMessages config_full w fresh =
    (Js.Ok Js.Undefined, stamped 2000 (marked "AC2" fresh),
     [ Console Starting; GetMessages 0; Console (Found 1);
       Console (Processing "AC2" "+15555550000");
       PostCompletion hours;
       Console (NoOrderDetected "AC2");
       Console Completed ]).
Proof. by vm_compute. Qed.

(** The classifier is down: the message counts as no order and is marked. *)
Example scenario_classifier_outage :
  let w := world (FetchResolves (Some [jane])) (GptThrows Js.Rejected)
             true true in
  processMessages config_full w fresh =
    (Js.Ok Js.Undefined, stamped 2000 (marked "AC1" fresh),
     [ Console Starting; GetMessages 0; Console (Found 1);
       Console (Processing "AC1" "+15555551234");
       PostCompletion jane;
       Console (AnalyzeFailed Js.Rejected);
       Console (NoOrderDetected "AC1");
       Console Completed ]).
Proof. by vm_compute. Qed.

(** The same batch again: nothing is classified, nothing is sent. *)
Example scenario_second_run :
  let w := world (FetchResolves (Some [jane; our_reply]))
             (GptParsed jane_order) true true in
  let once := final (processMessages config_full w fresh) in
  processMessages config_full w once =
    (Js.Ok Js.Undefined, once,
     [ Console Starting; GetMessages 2000; Console (Found 2);
       Console Completed ]).
Proof. by vm_compute. Qed.

(** A judgment with [isOrder] set and ill-typed fields: building the row
    and building the Slack message both raise, and both sinks return
    [false]. *)
Example scenario_ill_typed_judgment :
  let w := world (FetchResolves (Some [jane])) (GptParsed jane_order)
             true true in
  let judgment :=
    Js.Obj [ ("isOrder", Js.Bool true);
             ("products", Js.Str "oysters");
             ("urgency", Js.Num "3") ] in
  logOrderToSheet config_full w judgment jane fresh =
    (Js.Ok false, fresh, [Console (SheetLogFailed Js.TypeError)])
  ∧ sendSlackNotification config_full w judgment jane fresh =
      (Js.Ok false, fresh, [Console (SlackFailed Js.TypeError)]).
Proof. by vm_compute. Qed.

(** * Judgments of the contracted shape, and what the sinks make of them *)

Lemma sequence_join_strings (parts : list string) :
  Js.sequence (map Js.join_item (Js.Str <$> parts)) = Js.Ok parts.
Proof.
  induction parts as [|part rest IH]; [done|].
  rewrite fmap_cons. cbn [map Js.sequence Js.join_item Js.to_string].
  unfold Js.bind at 1 2. by rewrite IH.
Qed.

(** Joining an array of strings never raises. *)
Lemma join_strings (parts : list string) sep :
  Js.join (Js.Arr (Js.Str <$> parts)) sep = Js.Ok (Js.intercalate sep parts).
Proof. unfold Js.join. by rewrite sequence_join_strings. Qed.

(** X1. For a judgment that holds an order of the shape the prompt asks
    for, neither sink can fail on the data: the ledger row and the Slack
    message are both built. The row carries the fields as they are, the
    lists joined with a comma and a blank; the Slack message carries the
    marker looked up under the urgency, the urgency in upper case, and the
    word [None] in place of empty special requests. *)
Theorem contracted_order_builds_for_both_sinks (w : World) orderData order
    message timestamp :
  holds orderData order →
  ledger_row timestamp orderData message =
    Js.Ok [ Js.Str timestamp;
            Js.Str (order_customerName order);
            Js.Str (order_customerPhone order);
            Js.Str (Js.intercalate ", " (order_products order));
            Js.Str (Js.intercalate ", " (order_quantities order));
            Js.Str (order_totalAmount order);
            Js.Str (order_specialRequests order);
            Js.Str (order_urgency order);
            Js.Str (Message.body message);
            Js.Str (Message.id message);
            Js.Str "Pending" ]
  ∧ slack_message w orderData message =
      Js.Ok {| emoji := urgencyEmoji (order_urgency order);
               customer := order_customerName order;
               phone := order_customerPhone order;
               products := Js.intercalate ", " (order_products order);
               quantities := Js.intercalate ", " (order_quantities order);
               totalAmount := order_totalAmount order;
               urgency := String_toUpperCase w (order_urgency order);
               specialRequests :=
                 if String.eqb (order_specialRequests order) ""
                 then "None" else order_specialRequests order;
               originalBody := Message.body message;
               received := received_at w message;
               messageId := Message.id message |}.
Proof.
  intros (Hname & Hphone & Hproducts & Hquantities & Htotal & Hspecial
          & Hurgency).
  split.
  - unfold ledger_row, mbind, mret, Js.exc_bind, Js.exc_ret, Js.bind.
    by rewrite Hname, Hphone, Hproducts, join_strings, Hquantities,
      join_strings, Htotal, Hspecial, Hurgency.
  - unfold slack_message, mbind, mret, Js.exc_bind, Js.exc_ret, Js.bind.
    rewrite Hurgency, Hname, Hphone, Hproducts, join_strings, Hquantities,
      join_strings, Htotal, Hspecial.
    unfold Js.or_else. simpl.
    by destruct (String.eqb (order_specialRequests order) "").
Qed.

Lemma contracted_order_builds_for_both_sinks_witness :
  let w0 := world (FetchResolves (Some [jane])) (GptParsed jane_order)
              true true in
  holds jane_order jane_as_order
  ∧ ledger_row "now" jane_order jane =
      Js.Ok [ Js.Str "now"; Js.Str "Jane"; Js.Str "555-1234";
              Js.Str "oysters"; Js.Str "2 dozen"; Js.Str "TBD";
              Js.Str "pickup tomorrow"; Js.Str "normal";
              Js.Str "2 dozen oysters for pickup tomorrow, this is Jane";
              Js.Str "AC1"; Js.Str "Pending" ]
  ∧ slack_message w0 jane_order jane =
      Js.Ok {| emoji := MarkNormal;
               customer := "Jane";
               phone := "555-1234";
               products := "oysters";
               quantities := "2 dozen";
               totalAmount := "TBD";
               urgency := "NORMAL";
               specialRequests := "pickup tomorrow";
               originalBody :=
                 "2 dozen oysters for pickup tomorrow, this is Jane";
               received := "6/1/2025, 10:00:00 AM";
               messageId := "AC1" |}.
Proof.
  intros w0.
  assert (holds jane_order jane_as_order) as Hholds
    by (repeat split; reflexivity).
  split; [exact Hholds|].
  exact (contracted_order_builds_for_both_sinks w0 jane_order jane_as_order
           jane "now" Hholds).
Defined.

(** X2. Whatever the judgment, if the Slack message can be built from it
    then so can the ledger row: Slack asks of the data everything the
    ledger asks, and more. *)
Theorem slack_message_needs_more_than_ledger_row (w : World) orderData
    message payload timestamp :
  slack_message w orderData message = Js.Ok payload →
  ∃ row, ledger_row timestamp orderData message = Js.Ok row.
Proof.
  unfold slack_message, ledger_row.
  unfold mbind, mret, Js.exc_bind, Js.exc_ret, Js.bind.
  intros Hmsg.
  destruct (Js.get orderData "urgency") as [urgency|]; [|done].
  destruct (Js.get orderData "customerName") as [customerName|];
    [|by destruct (Js.to_string urgency)].
  destruct (Js.get orderData "customerPhone") as [customerPhone|];
    [|by destruct (Js.to_string urgency), (Js.to_string customerName)].
  destruct (Js.get orderData "products") as [products|];
    [|by destruct (Js.to_string urgency), (Js.to_string customerName),
         (Js.to_string customerPhone)].
  destruct (Js.join products ", ") as [productsJoined|];
    [|by destruct (Js.to_string urgency), (Js.to_string customerName),
         (Js.to_string customerPhone)].
  destruct (Js.get orderData "quantities") as [quantities|];
    [|by destruct (Js.to_string urgency), (Js.to_string customerName),
         (Js.to_string customerPhone)].
  destruct (Js.join quantities ", ") as [quantitiesJoined|];
    [|by destruct (Js.to_string urgency), (Js.to_string customerName),
         (Js.to_string customerPhone)].
  destruct (Js.get orderData "totalAmount") as [total|];
    [|by destruct (Js.to_string urgency), (Js.to_string customerName),
         (Js.to_string customerPhone)].
  destruct (Js.get orderData "specialRequests") as [special|]; [eauto|].
  by destruct (Js.to_string urgency), (Js.to_string customerName),
       (Js.to_string customerPhone), (Js.to_string total),
       (Js.toUpperCase (String_toUpperCase w) urgency).
Qed.

Lemma slack_message_needs_more_than_ledger_row_witness :
  let w0 := world (FetchResolves (Some [jane])) (GptParsed jane_order)
              true true in
  ∃ payload,
    slack_message w0 jane_order jane = Js.Ok payload
    ∧ ∃ row, ledger_row "now" jane_order jane = Js.Ok row.
Proof.
  intros w0. eexists. split; [reflexivity|].
  eapply (slack_message_needs_more_than_ledger_row w0 jane_order jane _ "now").
  reflexivity.
Defined.

(** * Runs with a key missing *)

Section MissingKeys.

Context (CONFIG : Config) (w : World).

(** X3. Without a key for the message provider a run makes no request at
    all: it logs that the key is missing, finds an empty batch, marks
    nothing, and still ends by moving the watermark to the current time. *)
Theorem run_without_openphone_key s :
  provided (OPENPHONE_API_KEY CONFIG) = false →
  processMessages CONFIG w s =
    (Js.Ok Js.Undefined, stamped (now_end w) s,
     [ Console Starting;
       Console OpenPhoneKeyMissing;
       Console (Found 0);
       Console Completed ]).
Proof.
  intros Hkey. rewrite processMessages_eq.
  unfold fetched. by rewrite fetchOpenPhoneMessages_eq, Hkey.
Qed.

Lemma loop_body_without_openai_key message s :
  provided (OPENAI_API_KEY CONFIG) = false →
  ∃ t, loop_body CONFIG w message s =
         (Js.Ok tt, marked (Message.id message) s, t)
       ∧ Forall (λ ev, is_request ev = false) t.
Proof.
  intros Hkey.
  destruct (decide (Message.id message ∈ processedMessageIds s)) as [Hin|Hin].
  { exists []. rewrite loop_body_processed by done. split; [|done].
    do 2 f_equal. destruct s as [ids ? ?]. unfold marked. simpl in *. f_equal.
    apply set_eq. intros id. rewrite elem_of_union, elem_of_singleton.
    split; [by right|by intros [->|?]]. }
  destruct (decide (Message.direction message = "inbound")) as [Hdir|Hdir].
  2:{ exists []. by rewrite loop_body_not_inbound. }
  assert (analyzeMessageForOrder CONFIG w message s =
            (Js.Ok not_order, s, [Console OpenAIKeyMissing])) as Han
    by (by rewrite analyzeMessageForOrder_eq, Hkey).
  rewrite (loop_body_inbound _ _ _ _ _ _ Hin Hdir Han). simpl.
  eexists. split; [done|]. by repeat constructor.
Qed.

Lemma for_of_without_openai_key batch s :
  provided (OPENAI_API_KEY CONFIG) = false →
  ∃ s' t,
    for_of batch (loop_body CONFIG w) s = (Js.Ok tt, s', t)
    ∧ sheets s' = sheets s
    ∧ lastProcessedTime s' = lastProcessedTime s
    ∧ Forall (λ ev, is_request ev = false) t.
Proof.
  intros Hkey. revert s. induction batch as [|message rest IH]; intros s.
  { by exists s, []. }
  destruct (loop_body_without_openai_key message s Hkey) as (t1 & Hbody & Ht1).
  rewrite for_of_cons, Hbody.
  destruct (IH (marked (Message.id message) s))
    as (s' & t2 & -> & Hsheets & Htime & Ht2).
  exists s', (t1 ++ t2). split; [done|].
  split; [done|]. split; [done|]. by apply Forall_app.
Qed.

(** X4. Without a key for the classifier no message is sent to it and no
    sink is called: every fetched message counts as no order. For every
    batch of well-formed messages (a list of [Message.t], whose fields are
    strings) the run is not aborted; it marks every fetched id and moves
    the watermark. The only request it can make is the fetch. *)
Theorem run_without_openai_key s :
  provided (OPENAI_API_KEY CONFIG) = false →
  ∃ s' t,
    processMessages CONFIG w s = (Js.Ok Js.Undefined, s', t)
    ∧ processedMessageIds s' =
        list_to_set (Message.id <$> fetched CONFIG w s)
          ∪ processedMessageIds s
    ∧ sheets s' = sheets s
    ∧ lastProcessedTime s' = now_end w
    ∧ Forall (λ ev, is_request ev = true → is_fetch ev = true) t.
Proof.
  intros Hkey.
  destruct (for_of_without_openai_key (fetched CONFIG w s) s Hkey)
    as (s1 & t1 & Hloop & Hsheets & _ & Ht1).
  rewrite processMessages_eq. cbv zeta. rewrite Hloop.
  eexists _, _. split; [done|].
  split; [simpl; by eapply for_of_marks|]. split; [done|]. split; [done|].
  simpl. constructor; [done|]. rewrite <- app_assoc. apply Forall_app. split.
  { rewrite fetchOpenPhoneMessages_eq.
    destruct (provided (OPENPHONE_API_KEY CONFIG));
      [destruct (openphone_get _ _)|];
      unfold trace; simpl; repeat (constructor; [done|]); constructor. }
  simpl. constructor; [done|]. apply Forall_app. split.
  - eapply Forall_impl; [exact Ht1|]. simpl. congruence.
  - repeat (constructor; [done|]); constructor.
Qed.

End MissingKeys.

Lemma run_without_openphone_key_witness :
  let CONFIG :=
    {| OPENPHONE_API_KEY := None;
       OPENAI_API_KEY := Some "sk-key";
       GOOGLE_SHEETS_CREDENTIALS := Some "{}";
       SLACK_WEBHOOK_URL := Some "https://hooks.slack.example/T0";
       GOOGLE_SHEET_ID := Some "sheet-1" |} in
  let w := world (FetchResolves (Some [jane])) (GptParsed jane_order)
             true true in
  provided (OPENPHONE_API_KEY CONFIG) = false
  ∧ processMessages CONFIG w fresh =
      (Js.Ok Js.Undefined, stamped (now_end w) fresh,
       [ Console Starting;
         Console OpenPhoneKeyMissing;
         Console (Found 0);
         Console Completed ]).
Proof.
  intros CONFIG w. split; [reflexivity|].
  exact (run_without_openphone_key CONFIG w fresh eq_refl).
Defined.

Lemma run_without_openai_key_witness :
  let CONFIG :=
    {| OPENPHONE_API_KEY := Some "op-key";
       OPENAI_API_KEY := Some "";
       GOOGLE_SHEETS_CREDENTIALS := Some "{}";
       SLACK_WEBHOOK_URL := Some "https://hooks.slack.example/T0";
       GOOGLE_SHEET_ID := Some "sheet-1" |} in
  let w := world (FetchResolves (Some [jane; hours])) (GptParsed jane_order)
             true true in
  provided (OPENAI_API_KEY CONFIG) = false
  ∧ ∃ s' t,
      processMessages CONFIG w fresh = (Js.Ok Js.Undefined, s', t)
      ∧ processedMessageIds s' =
          list_to_set (Message.id <$> fetched CONFIG w fresh)
            ∪ processedMessageIds fresh
      ∧ sheets s' = sheets fresh
      ∧ lastProcessedTime s' = now_end w
      ∧ Forall (λ ev, is_request ev = true → is_fetch ev = true) t.
Proof.
  intros CONFIG w. split; [reflexivity|].
  exact (run_without_openai_key CONFIG w fresh eq_refl).
Defined.

(** * Batches, run after run *)

Section Reruns.

Context (CONFIG : Config).

Lemma for_of_app {A} (first rest : list A) body s :
  for_of (first ++ rest) body s =
    match for_of first body s with
    | (Js.Ok _, s1, t1) =>
        let '(r, s2, t2) := for_of rest body s1 in (r, s2, t1 ++ t2)
    | (Js.Throw e, s1, t1) => (Js.Throw e, s1, t1)
    end.
Proof.
  revert s. induction first as [|x first IH]; intros s.
  { simpl. by destruct (for_of rest body s) as [[r s2] t2]. }
  rewrite <- app_comm_cons, !for_of_cons.
  destruct (body x s) as [[[[]|e] s1] t1]; [|done].
  rewrite IH.
  destruct (for_of first body s1) as [[[[]|e] s2] t2]; [|done].
  destruct (for_of rest body s2) as [[r s3] t3].
  by rewrite app_assoc.
Qed.

Lemma for_of_keeps_watermark w batch s r s' t :
  for_of batch (loop_body CONFIG w) s = (r, s', t) →
  lastProcessedTime s' = lastProcessedTime s ∧ sheets s' = sheets s.
Proof.
  revert s r s' t. induction batch as [|message rest IH]; intros s r s' t.
  { by intros [= _ <- _]. }
  rewrite for_of_cons.
  pose proof (loop_body_final CONFIG w message s) as Hfinal.
  destruct (loop_body CONFIG w message s) as [[[[]|e] s1] t1];
    unfold final in Hfinal; simpl in Hfinal.
  - destruct (for_of rest (loop_body CONFIG w) s1) as [[r2 s2] t2] eqn:Hrest.
    intros [= _ <- _]. destruct (IH _ _ _ _ Hrest) as [-> ->].
    by destruct Hfinal as [-> | ->].
  - intros [= _ <- _]. by destruct Hfinal as [-> | ->].
Qed.

(** A batch of messages that were all processed before is passed over. *)
Lemma for_of_processed w batch s :
  (∀ message, message ∈ batch →
              Message.id message ∈ processedMessageIds s) →
  for_of batch (loop_body CONFIG w) s = (Js.Ok tt, s, []).
Proof.
  induction batch as [|message rest IH]; intros Hall; [done|].
  rewrite for_of_cons, loop_body_processed
    by (apply Hall; by apply elem_of_cons; left).
  rewrite IH; [done|]. intros m Hm. apply Hall. by apply elem_of_cons; right.
Qed.

(** X5. After a run that reached the end of its batch, a run that is
    handed nothing but messages of that batch again, whatever the world
    answers this time, calls neither the classifier nor a sink and marks
    nothing: it fetches, and moves the watermark. *)
Theorem second_run_is_silent w1 w2 s :
  let s1 := final (processMessages CONFIG w1 s) in
  result (for_of (fetched CONFIG w1 s) (loop_body CONFIG w1) s) = Js.Ok tt →
  (∀ message, message ∈ fetched CONFIG w2 s1 →
              message ∈ fetched CONFIG w1 s) →
  processMessages CONFIG w2 s1 =
    (Js.Ok Js.Undefined, stamped (now_end w2) s1,
     Console Starting :: trace (fetchOpenPhoneMessages CONFIG w2 s1)
       ++ [ Console (Found (List.length (fetched CONFIG w2 s1)));
            Console Completed ]).
Proof.
  intros s1 Hfirst Hsub.
  destruct (for_of (fetched CONFIG w1 s) (loop_body CONFIG w1) s)
    as [[r s'] t] eqn:Hloop.
  unfold result in Hfirst. simpl in Hfirst. subst r.
  destruct (processMessages_completed CONFIG w1 s s' t Hloop)
    as [Hfinal Hids].
  assert (processedMessageIds s1 = processedMessageIds s') as Hs1
    by (subst s1; by rewrite Hfinal).
  rewrite processMessages_eq. cbv zeta.
  rewrite (for_of_processed w2 (fetched CONFIG w2 s1) s1).
  { simpl. by rewrite <- app_assoc. }
  intros message Hin. rewrite Hs1, Hids.
  apply elem_of_union_l, elem_of_list_to_set, list_elem_of_fmap.
  exists message. split; [done|]. by apply Hsub.
Qed.

(** X6. When the loop raises at one message, what it did before stays
    done: the messages ahead of it in the batch are marked, the ones behind
    it are not looked at, and the watermark is where the run found it, so
    the next run asks for the same window again. *)
Theorem abort_keeps_earlier_marks w ahead message behind s s1 t1 e s2 t2 :
  fetched CONFIG w s = ahead ++ message :: behind →
  for_of ahead (loop_body CONFIG w) s = (Js.Ok tt, s1, t1) →
  loop_body CONFIG w message s1 = (Js.Throw e, s2, t2) →
  final (processMessages CONFIG w s) = s1
  ∧ processedMessageIds s1 =
      list_to_set (Message.id <$> ahead) ∪ processedMessageIds s
  ∧ (Message.id message ∉ processedMessageIds s1)
  ∧ lastProcessedTime s1 = lastProcessedTime s
  ∧ trace (for_of (fetched CONFIG w s) (loop_body CONFIG w) s) = t1 ++ t2.
Proof.
  intros Hbatch Hahead Hbody.
  destruct (loop_body_raises CONFIG w message s1 e s2 t2 Hbody)
    as (_ & -> & Hnew & _).
  assert (for_of (fetched CONFIG w s) (loop_body CONFIG w) s =
            (Js.Throw e, s1, t1 ++ t2)) as Hloop.
  { by rewrite Hbatch, for_of_app, Hahead, for_of_cons, Hbody. }
  destruct (processMessages_aborted CONFIG w s e s1 _ Hloop) as [Hfinal Htime].
  split; [done|]. split; [by eapply for_of_marks|].
  split; [done|]. split; [done|]. by rewrite Hloop.
Qed.

End Reruns.

Lemma second_run_is_silent_witness :
  let w1 := world (FetchResolves (Some [jane; our_reply]))
              (GptParsed jane_order) true true in
  let w2 := world (FetchResolves (Some [our_reply; jane; jane]))
              (GptParsed Js.Null) false false in
  let s1 := final (processMessages config_full w1 fresh) in
  result (for_of (fetched config_full w1 fresh) (loop_body config_full w1)
            fresh) = Js.Ok tt
  ∧ (∀ message, message ∈ fetched config_full w2 s1 →
                message ∈ fetched config_full w1 fresh)
  ∧ processMessages config_full w2 s1 =
      (Js.Ok Js.Undefined, stamped (now_end w2) s1,
       Console Starting :: trace (fetchOpenPhoneMessages config_full w2 s1)
         ++ [ Console (Found (List.length (fetched config_full w2 s1)));
              Console Completed ]).
Proof.
  intros w1 w2 s1.
  assert (result (for_of (fetched config_full w1 fresh)
                    (loop_body config_full w1) fresh) = Js.Ok tt) as Hfirst
    by (by vm_compute).
  assert (∀ message, message ∈ fetched config_full w2 s1 →
                     message ∈ fetched config_full w1 fresh) as Hsub.
  { intros message.
    change (fetched config_full w2 s1) with [our_reply; jane; jane].
    change (fetched config_full w1 fresh) with [jane; our_reply].
    rewrite !elem_of_cons, !elem_of_nil. tauto. }
  split; [exact Hfirst|]. split; [exact Hsub|].
  exact (second_run_is_silent config_full w1 w2 fresh Hfirst Hsub).
Defined.

Lemma abort_keeps_earlier_marks_witness :
  let w := with_openai_post null_but_for_hours
             (world (FetchResolves (Some [hours; jane; our_reply]))
                (GptParsed Js.Null) true true) in
  let s1 := marked "AC2" fresh in
  let t1 := [ Console (Processing "AC2" "+15555550000");
              PostCompletion hours;
              Console (NoOrderDetected "AC2") ] in
  let t2 := [ Console (Processing "AC1" "+15555551234");
              PostCompletion jane ] in
  fetched config_full w fresh = [hours] ++ jane :: [our_reply]
  ∧ for_of [hours] (loop_body config_full w) fresh = (Js.Ok tt, s1, t1)
  ∧ loop_body config_full w jane s1 = (Js.Throw Js.TypeError, s1, t2)
  ∧ final (processMessages config_full w fresh) = s1
  ∧ processedMessageIds s1 =
      list_to_set (Message.id <$> [hours]) ∪ processedMessageIds fresh
  ∧ (Message.id jane ∉ processedMessageIds s1)
  ∧ lastProcessedTime s1 = lastProcessedTime fresh
  ∧ trace (for_of (fetched config_full w fresh) (loop_body config_full w)
             fresh) = t1 ++ t2.
Proof.
  intros w s1 t1 t2.
  assert (fetched config_full w fresh = [hours] ++ jane :: [our_reply])
    as Hbatch by reflexivity.
  assert (for_of [hours] (loop_body config_full w) fresh = (Js.Ok tt, s1, t1))
    as Hahead by (by vm_compute).
  assert (loop_body config_full w jane s1 = (Js.Throw Js.TypeError, s1, t2))
    as Hbody by (by vm_compute).
  do 3 (split; [done|]).
  exact (abort_keeps_earlier_marks config_full w [hours] jane [our_reply]
           fresh s1 t1 Js.TypeError s1 t2 Hbatch Hahead Hbody).
Defined.

(** * The requests of a run *)

Section Requests.

Context (CONFIG : Config).

(** What the loop body leaves in the trace, spelled out. *)
Lemma loop_body_trace w message s :
  trace (loop_body CONFIG w message s) = []
  ∨ ∃ t_an t_sinks closing,
      trace (loop_body CONFIG w message s) =
        Console (Processing (Message.id message) (Message.from message))
          :: t_an ++ t_sinks ++ closing
      ∧ (t_an = [Console OpenAIKeyMissing]
         ∨ t_an = [PostCompletion message]
         ∨ ∃ e, t_an = [PostCompletion message; Console (AnalyzeFailed e)])
      ∧ (t_sinks = []
         ∨ ∃ t_sheet t_slack,
             t_sinks = Console (OrderDetected (Message.id message))
                         :: t_sheet ++ t_slack
             ∧ (t_sheet = [Console SheetsNotConfigured]
                ∨ (∃ e, t_sheet = [Console (SheetLogFailed e)])
                ∨ ∃ row line,
                    t_sheet = [AppendValues (append_request CONFIG row);
                               Console line]
                    ∧ about (AppendValues (append_request CONFIG row))
                        = Some (Message.id message))
             ∧ (t_slack = [Console SlackUrlMissing]
                ∨ (∃ e, t_slack = [Console (SlackFailed e)])
                ∨ ∃ url payload line,
                    t_slack = [PostWebhook url payload; Console line]
                    ∧ messageId payload = Message.id message))
      ∧ (closing = [] ∨ ∃ line, closing = [Console line]).
Proof.
  destruct (decide (Message.id message ∈ processedMessageIds s)) as [Hin|Hin].
  { left. by rewrite loop_body_processed. }
  destruct (decide (Message.direction message = "inbound")) as [Hdir|Hdir].
  2:{ left. by rewrite loop_body_not_inbound. }
  right.
  destruct (analyzeMessageForOrder_returns CONFIG w message s)
    as (analysis & t_an & Han).
  rewrite (loop_body_inbound _ _ _ _ _ _ Hin Hdir Han). cbv zeta.
  assert (t_an = [Console OpenAIKeyMissing]
          ∨ t_an = [PostCompletion message]
          ∨ ∃ e, t_an = [PostCompletion message; Console (AnalyzeFailed e)])
    as Hshape.
  { rewrite analyzeMessageForOrder_eq in Han.
    destruct (provided _); [destruct (openai_post _ _)|]; simplify_eq; eauto. }
  destruct (Js.get analysis "isOrder") as [isOrder|e].
  2:{ exists t_an, [], []. unfold trace. simpl. rewrite app_nil_r. eauto 10. }
  destruct (Js.truthy isOrder).
  2:{ exists t_an, [], [Console (NoOrderDetected (Message.id message))].
      unfold trace. simpl. eauto 10. }
  set (sheet := logOrderToSheet CONFIG w analysis message s).
  set (slack := sendSlackNotification CONFIG w analysis message s).
  exists t_an,
    (Console (OrderDetected (Message.id message))
       :: trace sheet ++ trace slack),
    [Console (if succeeded sheet && succeeded slack
              then OrderProcessed (Message.id message)
              else OrderProcessedWithIssues (Message.id message))].
  split; [unfold trace at 1; simpl; by rewrite <- !app_assoc|].
  split; [done|]. split; [|eauto].
  right. exists (trace sheet), (trace slack). split; [done|]. split.
  - subst sheet. rewrite logOrderToSheet_eq.
    destruct (sheets s && _); [|by left].
    destruct (ledger_row _ _ _) as [row|e] eqn:Hrow; [|right; left; eauto].
    right. right.
    destruct (ledger_row_inv _ _ _ _ Hrow)
      as (? & ? & ? & ? & ? & ? & ? & ? & ? & Hfields).
    do 9 destruct Hfields as [_ Hfields]. subst row.
    destruct (sheets_append _ _); unfold trace; simpl; eauto.
  - subst slack. rewrite sendSlackNotification_eq. cbv zeta.
    destruct (provided _); [|by left].
    destruct (slack_message _ _ _) as [payload|e] eqn:Hmsg;
      [|right; left; eauto].
    right. right. apply slack_message_id in Hmsg.
    destruct (slack_post _ _ _); unfold trace; simpl; eauto 10.
Qed.

Lemma for_of_never_fetches w batch s :
  Forall (λ ev, is_fetch ev = false)
    (trace (for_of batch (loop_body CONFIG w) s)).
Proof.
  revert s. induction batch as [|message rest IH]; intros s.
  { unfold trace. simpl. constructor. }
  rewrite for_of_cons.
  assert (Forall (λ ev, is_fetch ev = false)
            (trace (loop_body CONFIG w message s))) as Hhead.
  { destruct (loop_body_trace w message s)
      as [-> | (t_an & t_sinks & closing & -> & Han & Hsinks & Hclosing)];
      [constructor|].
    constructor; [done|]. rewrite !Forall_app. repeat split.
    - destruct Han as [->|[->|[e ->]]]; repeat (constructor; [done|]);
        constructor.
    - destruct Hsinks as [->|(t_sheet & t_slack & -> & Hsheet & Hslack)];
        [constructor|].
      constructor; [done|]. apply Forall_app. split.
      + destruct Hsheet as [->|[[e ->]|(row & line & -> & _)]];
          repeat (constructor; [done|]); constructor.
      + destruct Hslack as [->|[[e ->]|(url & payload & line & -> & _)]];
          repeat (constructor; [done|]); constructor.
    - destruct Hclosing as [->|[line ->]]; repeat (constructor; [done|]);
        constructor. }
  destruct (loop_body CONFIG w message s) as [[[[]|e] s1] t1]; [|done].
  specialize (IH s1).
  destruct (for_of rest (loop_body CONFIG w) s1) as [[r s2] t2].
  unfold trace in *. simpl in *. by apply Forall_app.
Qed.

Lemma processMessages_fetches w s :
  List.filter is_fetch (trace (processMessages CONFIG w s)) =
    if provided (OPENPHONE_API_KEY CONFIG)
    then [GetMessages (lastProcessedTime s)] else [].
Proof.
  rewrite processMessages_eq. cbv zeta.
  pose proof (for_of_never_fetches w (fetched CONFIG w s) s) as Hloop.
  assert (∀ t, Forall (λ ev, is_fetch ev = false) t →
               List.filter is_fetch t = []) as Hnone.
  { intros t Ht. induction Ht as [|ev t Hev _ IH]; [done|].
    simpl. by rewrite Hev. }
  assert (List.filter is_fetch (trace (fetchOpenPhoneMessages CONFIG w s)) =
            if provided (OPENPHONE_API_KEY CONFIG)
            then [GetMessages (lastProcessedTime s)] else []) as Hfetch.
  { rewrite fetchOpenPhoneMessages_eq.
    destruct (provided _); [destruct (openphone_get _ _)|]; done. }
  destruct (for_of _ _ s) as [[[[]|e] s1] t]; unfold trace in *; simpl in *;
    rewrite !List.filter_app, Hfetch, (Hnone _ Hloop); simpl;
    by rewrite !app_nil_r.
Qed.

(** X7. A run asks the message provider at most once, and then for the
    messages created after the watermark the run started with: once when
    the key is set, never when it is not. The loop itself never fetches. *)
Theorem run_fetches_once_after_watermark w s :
  List.filter is_fetch (trace (processMessages CONFIG w s)) =
    (if provided (OPENPHONE_API_KEY CONFIG)
     then [GetMessages (lastProcessedTime s)] else [])
  ∧ ∀ batch s0,
      List.filter is_fetch (trace (for_of batch (loop_body CONFIG w) s0)) = [].
Proof.
  split; [apply processMessages_fetches|].
  intros batch s0.
  pose proof (for_of_never_fetches w batch s0) as Hloop.
  induction Hloop as [|ev t Hev _ IH]; [done|].
  simpl. by rewrite Hev.
Qed.

(** X8. What the next run asks for depends on how this one ended: after a
    run that reached the end of its batch the next fetch asks for messages
    created after the time that run ended, and after a run that was aborted
    it asks for the same window again. *)
Theorem next_run_fetches_from w1 w2 s :
  provided (OPENPHONE_API_KEY CONFIG) = true →
  List.filter is_fetch
    (trace (processMessages CONFIG w2 (final (processMessages CONFIG w1 s))))
  = [ GetMessages
        match result (for_of (fetched CONFIG w1 s) (loop_body CONFIG w1) s)
        with
        | Js.Ok _ => now_end w1
        | Js.Throw _ => lastProcessedTime s
        end ].
Proof.
  intros Hkey. rewrite processMessages_fetches, Hkey. do 2 f_equal.
  destruct (for_of (fetched CONFIG w1 s) (loop_body CONFIG w1) s)
    as [[[[]|e] s1] t] eqn:Hloop; unfold result; simpl.
  - by destruct (processMessages_completed CONFIG w1 s s1 t Hloop) as [-> _].
  - by destruct (processMessages_aborted CONFIG w1 s e s1 t Hloop)
      as [-> ->].
Qed.

End Requests.

Lemma next_run_fetches_from_witness :
  let w1 := world (FetchResolves (Some [jane])) (GptParsed Js.Null)
              true true in
  let w2 := world (FetchResolves (Some [jane])) (GptParsed jane_order)
              true true in
  provided (OPENPHONE_API_KEY config_full) = true
  ∧ List.filter is_fetch
      (trace (processMessages config_full w2
                (final (processMessages config_full w1 fresh))))
    = [ GetMessages
          match result (for_of (fetched config_full w1 fresh)
                          (loop_body config_full w1) fresh)
          with
          | Js.Ok _ => now_end w1
          | Js.Throw _ => lastProcessedTime fresh
          end ].
Proof.
  intros w1 w2. split; [reflexivity|].
  exact (next_run_fetches_from config_full w1 w2 fresh eq_refl).
Defined.

(** * One call per message *)

Section OncePerMessage.

Local Open Scope nat_scope.

Context (CONFIG : Config) (w : World).

Lemma calls_about_app kind id t1 t2 :
  calls_about kind id (t1 ++ t2) =
    calls_about kind id t1 ++ calls_about kind id t2.
Proof. apply List.filter_app. Qed.

Lemma calls_about_none kind id t :
  (∀ ev, ev ∈ t → about ev ≠ Some id) → calls_about kind id t = [].
Proof.
  induction t as [|ev t IH]; intros Hnone; [done|].
  unfold calls_about. simpl.
  rewrite bool_decide_eq_false_2, andb_false_r
    by (apply Hnone; by apply elem_of_cons; left).
  apply IH. intros ev' Hev'. apply Hnone. by apply elem_of_cons; right.
Qed.

Lemma calls_about_some kind id t :
  calls_about kind id t ≠ [] → ∃ ev, ev ∈ t ∧ about ev = Some id.
Proof.
  induction t as [|ev t IH]; [done|].
  unfold calls_about. simpl.
  destruct (bool_decide_reflect (about ev = Some id)) as [Hev|Hev].
  - intros _. exists ev. split; [by apply elem_of_cons; left|done].
  - rewrite andb_false_r. intros Hrest.
    destruct (IH Hrest) as (ev' & ? & ?).
    exists ev'. split; [by apply elem_of_cons; right|done].
Qed.

Lemma loop_body_calls_once message s id :
  List.length (calls_about is_classify id (trace (loop_body CONFIG w message s)))
    ≤ 1
  ∧ List.length (calls_about is_append id (trace (loop_body CONFIG w message s)))
      ≤ 1
  ∧ List.length (calls_about is_post id (trace (loop_body CONFIG w message s)))
      ≤ 1.
Proof.
  destruct (loop_body_trace CONFIG w message s)
    as [-> | (t_an & t_sinks & closing & -> & Han & Hsinks & Hclosing)];
    [by repeat split; simpl; lia|].
  destruct Han as [->|[->|[e ->]]];
    (destruct Hsinks as [->|(t_sheet & t_slack & -> & Hsheet & Hslack)];
     [|destruct Hsheet as [->|[[e1 ->]|(row & line1 & -> & _)]];
       destruct Hslack as [->|[[e2 ->]|(url & payload & line2 & -> & _)]]]);
    destruct Hclosing as [->|[line ->]];
    unfold calls_about;
    cbn [app List.filter is_classify is_append is_post andb];
    repeat split; repeat case_match; simpl; lia.
Qed.

Lemma for_of_calls_once kind batch s id :
  (∀ message s0,
     List.length (calls_about kind id (trace (loop_body CONFIG w message s0)))
       ≤ 1) →
  List.length (calls_about kind id (trace (for_of batch (loop_body CONFIG w) s)))
    ≤ 1.
Proof.
  intros Hbody. revert s. induction batch as [|message rest IH]; intros s.
  { unfold trace. simpl. lia. }
  rewrite for_of_cons.
  specialize (Hbody message s).
  pose proof (loop_body_about CONFIG w message s) as Habout.
  pose proof (loop_body_marks CONFIG w message s) as Hmarks.
  destruct (loop_body CONFIG w message s) as [[[[]|e] s1] t1]; [|done].
  specialize (IH s1).
  pose proof (for_of_about CONFIG w rest s1) as Hrest.
  destruct (for_of rest (loop_body CONFIG w) s1) as [[r s2] t2].
  unfold trace in *. simpl in *.
  rewrite calls_about_app, length_app.
  destruct (decide (id ∈ processedMessageIds s1)) as [Hin|Hin].
  - rewrite (calls_about_none kind id t2); [simpl; lia|].
    intros ev Hev Hid. by destruct (Hrest ev id Hev Hid).
  - rewrite (calls_about_none kind id t1); [simpl; lia|].
    intros ev Hev Hid. destruct (Habout ev id Hev Hid) as (-> & _ & _).
    apply Hin. rewrite (Hmarks s1 t1 eq_refl).
    apply elem_of_union_l. by apply elem_of_singleton.
Qed.

Lemma processMessages_calls_once s id :
  let t := trace (processMessages CONFIG w s) in
  List.length (calls_about is_classify id t) ≤ 1
  ∧ List.length (calls_about is_append id t) ≤ 1
  ∧ List.length (calls_about is_post id t) ≤ 1.
Proof.
  cbv zeta.
  assert (∀ kind,
            (∀ message s0,
               List.length (calls_about kind id
                         (trace (loop_body CONFIG w message s0))) ≤ 1) →
            List.length (calls_about kind id (trace (processMessages CONFIG w s)))
              ≤ 1) as Hrun.
  { intros kind Hbody. rewrite processMessages_eq. cbv zeta.
    pose proof (for_of_calls_once kind (fetched CONFIG w s) s id Hbody)
      as Hloop.
    assert (calls_about kind id (trace (fetchOpenPhoneMessages CONFIG w s))
            = []) as Hfetch.
    { apply calls_about_none. rewrite fetchOpenPhoneMessages_eq.
      destruct (provided _); [destruct (openphone_get _ _)|];
        unfold trace; simpl; intros ev Hev; set_unfold; destruct_or?;
        by subst. }
    assert (∀ line t,
              calls_about kind id (Console line :: t) = calls_about kind id t)
      as Hconsole.
    { intros line t. unfold calls_about. simpl.
      by rewrite andb_false_r. }
    destruct (for_of _ _ s) as [[[[]|e] s1] t];
      unfold trace at 1; unfold trace at 1 in Hloop; cbn [snd app] in *;
      rewrite Hconsole, !calls_about_app, Hfetch, !Hconsole, !length_app;
      change (calls_about kind id []) with (@nil Event); simpl; lia. }
  repeat split; apply Hrun; intros message s0;
    by destruct (loop_body_calls_once message s0 id) as (? & ? & ?).
Qed.

(** X9. Within one run there is at most one classifier request, at most
    one ledger append and at most one Slack post about any message id, even
    when the provider lists a message twice in the batch. *)
Theorem one_call_per_message_id s id :
  let t := trace (processMessages CONFIG w s) in
  List.length (calls_about is_classify id t) ≤ 1
  ∧ List.length (calls_about is_append id t) ≤ 1
  ∧ List.length (calls_about is_post id t) ≤ 1.
Proof.
  cbv zeta.
  destruct (processMessages_calls_once s id)
    as (Hclassify & Happend & Hpost).
  repeat split; assumption.
Qed.

End OncePerMessage.

(** * Which judgments count as orders *)

(** X10. An inbound message that was not processed yet is handled as an
    order exactly when the classifier's judgment is an object whose own
    [isOrder] property is truthy, whatever the type of that property. Any
    other judgment that is not [null] (a number, a string, an array, an
    object without [isOrder], [isOrder] being false, zero or empty) is no
    order. *)
Theorem order_detected_iff CONFIG w message s analysis t_an :
  Message.id message ∉ processedMessageIds s →
  Message.direction message = "inbound" →
  analyzeMessageForOrder CONFIG w message s = (Js.Ok analysis, s, t_an) →
  Console (OrderDetected (Message.id message))
    ∈ trace (loop_body CONFIG w message s)
  ↔ ∃ props flag,
      analysis = Js.Obj props
      ∧ Js.own "isOrder" props = Some flag
      ∧ Js.truthy flag = true.
Proof.
  intros Hin Hdir Han.
  rewrite (loop_body_inbound _ _ _ _ _ _ Hin Hdir Han). cbv zeta.
  assert (Console (OrderDetected (Message.id message)) ∉ t_an) as Hnot_an.
  { rewrite analyzeMessageForOrder_eq in Han.
    destruct (provided _); [destruct (openai_post _ _)|]; simplify_eq;
      set_unfold; intros ?; by destruct_or?. }
  assert (∀ isOrder,
            Js.get analysis "isOrder" = Js.Ok isOrder →
            Js.truthy isOrder = true →
            ∃ props flag,
              analysis = Js.Obj props
              ∧ Js.own "isOrder" props = Some flag
              ∧ Js.truthy flag = true) as Hobject.
  { intros isOrder Hget Htruthy.
    destruct analysis; simpl in Hget; simplify_eq; try done.
    destruct (Js.own "isOrder" props) as [flag|] eqn:Hown; [eauto|done]. }
  destruct (Js.get analysis "isOrder") as [isOrder|e] eqn:Hget.
  - destruct (Js.truthy isOrder) eqn:Htruthy.
    + split; [intros _; by eapply Hobject|]. intros _.
      unfold trace. simpl. apply elem_of_cons. right.
      apply elem_of_app. right. by apply elem_of_cons; left.
    + split.
      * unfold trace. simpl. rewrite elem_of_cons, elem_of_app, elem_of_cons,
          elem_of_nil. by intros [?|[?|[?|?]]].
      * intros (props & flag & -> & Hown & Hflag).
        simpl in Hget. rewrite Hown in Hget. simpl in Hget. congruence.
  - split.
    + unfold trace. simpl. rewrite elem_of_cons. by intros [?|?].
    + intros (props & flag & -> & _). by simpl in Hget.
Qed.

Lemma order_detected_iff_witness :
  let w := world (FetchResolves (Some [jane]))
             (GptParsed (Js.Obj [("isOrder", Js.Str "false")])) true true in
  let analysis := Js.Obj [("isOrder", Js.Str "false")] in
  (Message.id jane ∉ processedMessageIds fresh)
  ∧ Message.direction jane = "inbound"
  ∧ analyzeMessageForOrder config_full w jane fresh
      = (Js.Ok analysis, fresh, [PostCompletion jane])
  ∧ (Console (OrderDetected (Message.id jane))
       ∈ trace (loop_body config_full w jane fresh)
     ↔ ∃ props flag,
         analysis = Js.Obj props
         ∧ Js.own "isOrder" props = Some flag
         ∧ Js.truthy flag = true).
Proof.
  intros w analysis.
  assert (Message.id jane ∉ processedMessageIds fresh) as Hnew
    by apply not_elem_of_empty.
  do 3 (split; [done|]).
  exact (order_detected_iff config_full w jane fresh analysis
           [PostCompletion jane] Hnew eq_refl eq_refl).
Defined.

(** * The ledger when it is not configured *)

Ltac forall_events :=
  repeat first
    [ assumption
    | exact I
    | apply Forall_nil
    | constructor; [done|]
    | apply Forall_app; split ].

Section Unconfigured.

Context (CONFIG : Config).

Lemma processMessages_keeps_sheets w s :
  sheets (final (processMessages CONFIG w s)) = sheets s.
Proof.
  rewrite processMessages_eq. cbv zeta.
  destruct (for_of _ _ s) as [[[[]|e] s1] t] eqn:Hloop;
    unfold final; simpl;
    by destruct (for_of_keeps_watermark CONFIG w _ _ _ _ _ Hloop) as [_ ->].
Qed.

Lemma loop_body_without_ledger w message s :
  sheets s && provided (GOOGLE_SHEET_ID CONFIG) = false →
  Forall (λ ev, is_sheets_request ev = false)
    (trace (loop_body CONFIG w message s)).
Proof.
  intros Hguard.
  destruct (decide (Message.id message ∈ processedMessageIds s)) as [Hin|Hin].
  { rewrite loop_body_processed by done. constructor. }
  destruct (decide (Message.direction message = "inbound")) as [Hdir|Hdir].
  2:{ rewrite loop_body_not_inbound by done. constructor. }
  destruct (analyzeMessageForOrder_returns CONFIG w message s)
    as (analysis & t_an' & Han').
  rewrite (loop_body_inbound _ _ _ _ _ _ Hin Hdir Han'). cbv zeta.
  assert (Forall (λ ev, is_sheets_request ev = false) t_an') as Hclean_an.
  { rewrite analyzeMessageForOrder_eq in Han'.
    destruct (provided (OPENAI_API_KEY CONFIG));
      [destruct (openai_post _ _)|]; simplify_eq;
      repeat (constructor; [done|]); constructor. }
  assert (Forall (λ ev, is_sheets_request ev = false)
            (trace (logOrderToSheet CONFIG w analysis message s)))
    as Hclean_sheet.
  { rewrite logOrderToSheet_eq, Hguard. unfold trace. simpl.
    repeat (constructor; [done|]); constructor. }
  assert (Forall (λ ev, is_sheets_request ev = false)
            (trace (sendSlackNotification CONFIG w analysis message s)))
    as Hclean_slack.
  { rewrite sendSlackNotification_eq. cbv zeta.
    destruct (provided (SLACK_WEBHOOK_URL CONFIG));
      [destruct (slack_message _ _ _); [destruct (slack_post _ _ _)|]|];
      unfold trace; simpl; repeat (constructor; [done|]); constructor. }
  destruct (Js.get analysis "isOrder") as [isOrder|e];
    [destruct (Js.truthy isOrder)|]; unfold trace at 1; cbn [snd app];
    forall_events.
Qed.

Lemma for_of_without_ledger w batch s :
  sheets s && provided (GOOGLE_SHEET_ID CONFIG) = false →
  Forall (λ ev, is_sheets_request ev = false)
    (trace (for_of batch (loop_body CONFIG w) s)).
Proof.
  revert s. induction batch as [|message rest IH]; intros s Hguard.
  { unfold trace. simpl. constructor. }
  rewrite for_of_cons.
  pose proof (loop_body_without_ledger w message s Hguard) as Hhead.
  pose proof (loop_body_final CONFIG w message s) as Hfinal.
  destruct (loop_body CONFIG w message s) as [[[[]|e] s1] t1]; [|done].
  assert (sheets s1 && provided (GOOGLE_SHEET_ID CONFIG) = false) as Hguard1.
  { unfold final in Hfinal. simpl in Hfinal. by destruct Hfinal as [-> | ->]. }
  specialize (IH s1 Hguard1).
  destruct (for_of rest (loop_body CONFIG w) s1) as [[r s2] t2].
  unfold trace in *. simpl in *. by apply Forall_app.
Qed.

Lemma exec_without_ledger w op s :
  provided (GOOGLE_SHEETS_CREDENTIALS CONFIG)
    && provided (GOOGLE_SHEET_ID CONFIG) = false →
  sheets s && provided (GOOGLE_SHEET_ID CONFIG) = false →
  sheets (exec CONFIG w op s) && provided (GOOGLE_SHEET_ID CONFIG) = false
  ∧ Forall (λ ev, is_sheets_request ev = false) (exec_trace CONFIG w op s).
Proof.
  intros Hconfig Hguard. destruct op; simpl.
  - unfold initializeGoogleSheets. run_unfold.
    destruct (provided (GOOGLE_SHEETS_CREDENTIALS CONFIG)); simpl in *.
    + destruct (sheets_client _ _); unfold final, trace; simpl;
        (split; [by rewrite ?Hconfig, ?andb_false_r|]);
        repeat (constructor; [done|]); constructor.
    + unfold final, trace. simpl. split; [done|].
      repeat (constructor; [done|]); constructor.
  - rewrite fetchOpenPhoneMessages_eq.
    destruct (provided (OPENPHONE_API_KEY CONFIG));
      [destruct (openphone_get _ _)|]; unfold final, trace; simpl;
      (split; [done|]); repeat (constructor; [done|]); constructor.
  - rewrite analyzeMessageForOrder_eq.
    destruct (provided (OPENAI_API_KEY CONFIG));
      [destruct (openai_post _ _)|]; unfold final, trace; simpl;
      (split; [done|]); repeat (constructor; [done|]); constructor.
  - rewrite logOrderToSheet_eq, Hguard. unfold final, trace. simpl.
    split; [done|]. repeat (constructor; [done|]); constructor.
  - rewrite sendSlackNotification_eq. cbv zeta.
    destruct (provided (SLACK_WEBHOOK_URL CONFIG));
      [destruct (slack_message _ _ _); [destruct (slack_post _ _ _)|]|];
      unfold final, trace; simpl;
      (split; [done|]); repeat (constructor; [done|]); constructor.
  - split; [by rewrite processMessages_keeps_sheets|].
    rewrite processMessages_eq. cbv zeta.
    pose proof (for_of_without_ledger w (fetched CONFIG w s) s Hguard)
      as Hloop.
    assert (Forall (λ ev, is_sheets_request ev = false)
              (trace (fetchOpenPhoneMessages CONFIG w s))) as Hfetch.
    { rewrite fetchOpenPhoneMessages_eq.
      destruct (provided (OPENPHONE_API_KEY CONFIG));
        [destruct (openphone_get _ _)|]; unfold trace; simpl;
        repeat (constructor; [done|]); constructor. }
    destruct (for_of _ _ s) as [[[[]|e] s1] t]; unfold trace at 1;
      unfold trace at 1 in Hloop; cbn [snd app] in *; forall_events.
  - rewrite setupGoogleSheetHeaders_final. split; [done|].
    unfold setupGoogleSheetHeaders. run_unfold.
    destruct (sheets s); simpl in *;
      [rewrite Hguard|]; unfold trace; simpl;
      repeat (constructor; [done|]); constructor.
Qed.

(** X11. A service whose Sheets credentials or sheet id are not set never
    sends a request to the Sheets API, neither to append an order nor to
    write the headers, over its whole lifetime and whatever is invoked on
    it: the ledger is a no-op from boot on. *)
Theorem ledger_is_permanent_noop w0 calls :
  provided (GOOGLE_SHEETS_CREDENTIALS CONFIG)
    && provided (GOOGLE_SHEET_ID CONFIG) = false →
  Forall (λ ev, is_sheets_request ev = false)
    (lifetime_trace CONFIG calls (boot CONFIG w0).1).
Proof.
  intros Hconfig.
  assert (sheets (boot CONFIG w0).1 && provided (GOOGLE_SHEET_ID CONFIG)
          = false) as Hguard.
  { unfold boot, initializeGoogleSheets. run_unfold.
    destruct (provided (GOOGLE_SHEETS_CREDENTIALS CONFIG)); simpl in *;
      [|done].
    destruct (sheets_client _ _); simpl; by rewrite ?Hconfig. }
  generalize dependent (boot CONFIG w0).1. intros s Hguard.
  revert s Hguard. induction calls as [|[w op] rest IH]; intros s Hguard.
  { constructor. }
  simpl. destruct (exec_without_ledger w op s Hconfig Hguard) as [Hnext Hnow].
  apply Forall_app. split; [done|]. by apply IH.
Qed.

End Unconfigured.

Lemma ledger_is_permanent_noop_witness :
  let CONFIG :=
    {| OPENPHONE_API_KEY := Some "op-key";
       OPENAI_API_KEY := Some "sk-key";
       GOOGLE_SHEETS_CREDENTIALS := None;
       SLACK_WEBHOOK_URL := Some "https://hooks.slack.example/T0";
       GOOGLE_SHEET_ID := Some "sheet-1" |} in
  let w := world (FetchResolves (Some [jane])) (GptParsed jane_order)
             true true in
  provided (GOOGLE_SHEETS_CREDENTIALS CONFIG)
    && provided (GOOGLE_SHEET_ID CONFIG) = false
  ∧ Forall (λ ev, is_sheets_request ev = false)
      (lifetime_trace CONFIG [(w, ProcessMessages); (w, SetupGoogleSheetHeaders)]
         (boot CONFIG w).1).
Proof.
  intros CONFIG w. split; [reflexivity|].
  exact (ledger_is_permanent_noop CONFIG w
           [(w, ProcessMessages); (w, SetupGoogleSheetHeaders)] eq_refl).
Defined.

(** * The control surface *)

Section ControlSurface.

Context (CONFIG : Config) (w : World) (said : Js.Error → string).

Lemma processMessages_returns s :
  processMessages CONFIG w s =
    (Js.Ok Js.Undefined, final (processMessages CONFIG w s),
     trace (processMessages CONFIG w s)).
Proof.
  rewrite processMessages_eq. cbv zeta.
  by destruct (for_of _ _ s) as [[[[]|e] s1] t].
Qed.

(** X12. The manual trigger always answers 200 with [success: true], also
    when the fetch failed or the loop was aborted: [processMessages] never
    raises, so the handler's [catch] that would answer 500 is never taken.
    State and trace are those of the run. *)
Theorem process_now_always_succeeds s :
  process_now CONFIG w said s =
    (Js.Ok (answer_ok "Processing completed"),
     final (processMessages CONFIG w s),
     trace (processMessages CONFIG w s)).
Proof.
  unfold process_now. rewrite try_catch_eq, bind_eq, processMessages_returns.
  simpl. by rewrite app_nil_r.
Qed.

(** X13. The setup endpoint answers 200 exactly when the Sheets client
    exists, the sheet id is set and the update goes through; it has then
    sent one update, of the eleven headers to [Orders!A1:K1]. In every
    other case [setupGoogleSheetHeaders] raises instead of returning
    [false] and the endpoint answers 500 with the error's message, without
    a request when the ledger is not configured. The state is never
    touched. *)
Theorem setup_sheets_answers s :
  setup_sheets CONFIG w said s =
    if sheets s && provided (GOOGLE_SHEET_ID CONFIG) then
      if sheets_update w (headers_request CONFIG) then
        (Js.Ok (answer_ok "Google Sheets setup completed"), s,
         [UpdateValues (headers_request CONFIG); Console HeadersDone])
      else
        (Js.Ok (answer_error (said Js.Rejected)), s,
         [UpdateValues (headers_request CONFIG);
          Console (HeadersFailed Js.Rejected)])
    else
      (Js.Ok (answer_error "Google Sheets not configured"), s,
       [Console (HeadersFailed Js.Failure)]).
Proof.
  unfold setup_sheets, setupGoogleSheetHeaders. run_unfold.
  destruct (sheets s); simpl; [|done].
  destruct (provided _); simpl; [|done].
  by destruct (sheets_update _ _).
Qed.

End ControlSurface.

(** * Headers and rows *)

(** X14. Every row [logOrderToSheet] can build has eleven cells, as many as
    the header row that [setupGoogleSheetHeaders] writes, and both requests
    go to the same spreadsheet, so each cell of an appended row sits under
    a header of columns A to K. *)
Theorem rows_are_as_wide_as_headers CONFIG timestamp orderData message row :
  ledger_row timestamp orderData message = Js.Ok row →
  List.length row = List.length headers
  ∧ List.length row = 11%nat
  ∧ spreadsheetId (append_request CONFIG row)
      = spreadsheetId (headers_request CONFIG).
Proof.
  intros Hrow.
  destruct (ledger_row_inv _ _ _ _ Hrow)
    as (? & ? & ? & ? & ? & ? & ? & ? & ? & Hfields).
  do 9 destruct Hfields as [_ Hfields]. by subst row.
Qed.

Lemma rows_are_as_wide_as_headers_witness :
  ledger_row "now" jane_order jane =
    Js.Ok [ Js.Str "now"; Js.Str "Jane"; Js.Str "555-1234";
            Js.Str "oysters"; Js.Str "2 dozen"; Js.Str "TBD";
            Js.Str "pickup tomorrow"; Js.Str "normal";
            Js.Str "2 dozen oysters for pickup tomorrow, this is Jane";
            Js.Str "AC1"; Js.Str "Pending" ]
  ∧ ∃ row,
      List.length row = List.length headers
      ∧ List.length row = 11%nat
      ∧ spreadsheetId (append_request config_full row)
          = spreadsheetId (headers_request config_full).
Proof.
  split; [reflexivity|]. eexists.
  exact (rows_are_as_wide_as_headers config_full "now" jane_order jane _
           eq_refl).
Defined.

(** * The schedule *)

Section Schedule.

Local Open Scope nat_scope.

Lemma existsb_numbers (items : list string) (values : list nat) value :
  map number items = map Some values →
  existsb (λ item,
     match number item with
     | Some n => Nat.eqb n value
     | None => false
     end) items
  = existsb (λ n, Nat.eqb n value) values.
Proof.
  revert values. induction items as [|item items IH]; intros [|n values];
    try done.
  simpl. intros [= -> Hrest]. by rewrite (IH _ Hrest).
Qed.

Lemma existsb_eqb_In (values : list nat) value :
  existsb (λ n, Nat.eqb n value) values = true ↔ In value values.
Proof.
  rewrite existsb_exists. split.
  - intros (n & Hin & Heq). apply Nat.eqb_eq in Heq. by subst.
  - intros Hin. exists value. split; [done|]. apply Nat.eqb_refl.
Qed.

Lemma fires_primary minute hour day month weekday :
  fires primary_schedule minute hour day month weekday = true
  ↔ minute = 0 ∧ In hour [5; 6; 8; 9; 11; 12; 14; 15].
Proof.
  unfold fires.
  change (split_on " " primary_schedule)
    with ["0"; "5,6,8,9,11,12,14,15"; "*"; "*"; "*"]%string.
  unfold field_admits.
  change (String.eqb "*" "*") with true.
  change (String.eqb "0" "*") with false.
  change (String.eqb "5,6,8,9,11,12,14,15" "*") with false.
  cbv iota.
  rewrite (existsb_numbers _ [0] minute) by reflexivity.
  rewrite (existsb_numbers _ [5; 6; 8; 9; 11; 12; 14; 15] hour)
    by reflexivity.
  rewrite !andb_true_r, andb_true_iff, !existsb_eqb_In. simpl. intuition.
Qed.

Lemma fires_secondary minute hour day month weekday :
  fires secondary_schedule minute hour day month weekday = true
  ↔ minute = 30 ∧ In hour [6; 8; 10; 12; 14].
Proof.
  unfold fires.
  change (split_on " " secondary_schedule)
    with ["30"; "6,8,10,12,14"; "*"; "*"; "*"]%string.
  unfold field_admits.
  change (String.eqb "*" "*") with true.
  change (String.eqb "30" "*") with false.
  change (String.eqb "6,8,10,12,14" "*") with false.
  cbv iota.
  rewrite (existsb_numbers _ [30] minute) by reflexivity.
  rewrite (existsb_numbers _ [6; 8; 10; 12; 14] hour) by reflexivity.
  rewrite !andb_true_r, andb_true_iff, !existsb_eqb_In. simpl. intuition.
Qed.

(** X15. The first schedule starts a run on the hour at 5, 6, 8, 9, 11, 12,
    14 and 15 o'clock, the second at half past 6, 8, 10, 12 and 14, every
    day of every month; the two never start a run in the same minute, and
    no run is started before 05:00 or after 15:00. *)
Theorem schedules_never_coincide minute hour day month weekday :
  (fires primary_schedule minute hour day month weekday = true
   ↔ minute = 0 ∧ In hour [5; 6; 8; 9; 11; 12; 14; 15])
  ∧ (fires secondary_schedule minute hour day month weekday = true
     ↔ minute = 30 ∧ In hour [6; 8; 10; 12; 14])
  ∧ fires primary_schedule minute hour day month weekday
      && fires secondary_schedule minute hour day month weekday = false
  ∧ (fires primary_schedule minute hour day month weekday
       || fires secondary_schedule minute hour day month weekday = true →
     5 * 60 ≤ 60 * hour + minute ≤ 15 * 60).
Proof.
  pose proof (fires_primary minute hour day month weekday) as Hfirst.
  pose proof (fires_secondary minute hour day month weekday) as Hsecond.
  split; [done|]. split; [done|]. split.
  - destruct (fires primary_schedule _ _ _ _ _); [|done].
    destruct (fires secondary_schedule _ _ _ _ _); [|done].
    destruct Hfirst as [Hfirst _], Hsecond as [Hsecond _].
    destruct (Hfirst eq_refl), (Hsecond eq_refl). lia.
  - rewrite orb_true_iff, Hfirst, Hsecond. simpl. lia.
Qed.

Lemma run_starts_within_ninety_minutes t :
  300 ≤ t < 900 →
  ∃ gap, 1 ≤ gap ≤ 90
         ∧ run_starts ((t + gap) / 60) ((t + gap) mod 60) = true.
Proof.
  intros Ht.
  assert (forallb (λ t0,
            existsb (λ half_hours,
               let gap := 30 - t0 mod 30 + 30 * half_hours in
               (gap <=? 90)
               && run_starts ((t0 + gap) / 60) ((t0 + gap) mod 60))
              [0; 1; 2]) (seq 300 600) = true) as Hcheck
    by (vm_compute; reflexivity).
  rewrite forallb_forall in Hcheck.
  specialize (Hcheck t). rewrite existsb_exists in Hcheck.
  destruct Hcheck as (half_hours & _ & Hstarts); [apply in_seq; lia|].
  cbv zeta in Hstarts. apply andb_true_iff in Hstarts as [Hle Hstarts].
  apply Nat.leb_le in Hle.
  exists (30 - t mod 30 + 30 * half_hours). split; [|done].
  pose proof (Nat.mod_upper_bound t 30). lia.
Qed.

(** X16. Between 05:00 and 15:00 a run is started within 90 minutes of any
    moment, but not every 90 minutes: the runs of 06:00 and 06:30 are 30
    minutes apart, and no run at all is started in between. *)
Theorem runs_at_most_ninety_minutes_apart t :
  300 ≤ t < 900 →
  (∃ gap, 1 ≤ gap ≤ 90
          ∧ run_starts ((t + gap) / 60) ((t + gap) mod 60) = true)
  ∧ run_starts 6 0 = true
  ∧ run_starts 6 30 = true
  ∧ ∀ minute, 0 < minute < 30 → run_starts 6 minute = false.
Proof.
  intros Ht. split; [by apply run_starts_within_ninety_minutes|].
  split; [by vm_compute|]. split; [by vm_compute|].
  intros minute Hminute. unfold run_starts.
  apply orb_false_iff. split; apply not_true_is_false; intros Hfires.
  - apply fires_primary in Hfires. lia.
  - apply fires_secondary in Hfires. lia.
Qed.

End Schedule.

Lemma runs_at_most_ninety_minutes_apart_witness :
  (300 ≤ 541 < 900)%nat
  ∧ (∃ gap, (1 ≤ gap ≤ 90)%nat
            ∧ run_starts ((541 + gap) / 60) ((541 + gap) mod 60) = true)
  ∧ run_starts 6 0 = true
  ∧ run_starts 6 30 = true
  ∧ ∀ minute, (0 < minute < 30)%nat → run_starts 6 minute = false.
Proof.
  assert (300 ≤ 541 < 900)%nat as Ht by lia.
  split; [exact Ht|].
  exact (runs_at_most_ninety_minutes_apart 541 Ht).
Defined.

(** * Deliveries over runs in sequence *)

Section Deliveries.

Local Open Scope nat_scope.

Context (CONFIG : Config).

(** A request to a sink. *)
Lemma loop_body_delivery_marks w message s ev id :
  ev ∈ trace (loop_body CONFIG w message s) →
  is_append ev || is_post ev = true →
  about ev = Some id →
  id ∈ processedMessageIds (final (loop_body CONFIG w message s)).
Proof.
  intros Hev Hkind Habout.
  destruct (loop_body_about CONFIG w message s ev id Hev Habout)
    as (-> & Hnew & Hdir).
  destruct (analyzeMessageForOrder_returns CONFIG w message s)
    as (analysis & t_an & Han).
  rewrite (loop_body_inbound _ _ _ _ _ _ Hnew Hdir Han) in Hev |- *.
  cbv zeta in Hev |- *.
  assert (∀ ev', ev' ∈ t_an → is_append ev' || is_post ev' = false) as Han_no.
  { rewrite analyzeMessageForOrder_eq in Han.
    destruct (provided (OPENAI_API_KEY CONFIG));
      [destruct (openai_post _ _)|]; simplify_eq; intros ev' Hev';
      set_unfold; destruct_or?; by subst. }
  destruct (Js.get analysis "isOrder") as [isOrder|e].
  - destruct (Js.truthy isOrder); unfold final; simpl.
    + apply elem_of_union_l. by apply elem_of_singleton.
    + apply elem_of_union_l. by apply elem_of_singleton.
  - unfold trace in Hev. simpl in Hev.
    apply elem_of_cons in Hev as [->|Hev]; [done|].
    apply Han_no in Hev. congruence.
Qed.

Lemma for_of_delivery_marks w batch s ev id :
  ev ∈ trace (for_of batch (loop_body CONFIG w) s) →
  is_append ev || is_post ev = true →
  about ev = Some id →
  id ∈ processedMessageIds (final (for_of batch (loop_body CONFIG w) s)).
Proof.
  revert s. induction batch as [|message rest IH]; intros s Hev Hkind Habout.
  { unfold trace in Hev. simpl in Hev. by apply elem_of_nil in Hev. }
  rewrite for_of_cons in Hev |- *.
  pose proof (loop_body_delivery_marks w message s ev id) as Hhead.
  destruct (loop_body CONFIG w message s) as [[[[]|e] s1] t1].
  - specialize (IH s1).
    pose proof (@respects_for_of grows grows_preorder _ rest
                  (loop_body CONFIG w) (loop_body_grows CONFIG w) s1)
      as Hgrows.
    destruct (for_of rest (loop_body CONFIG w) s1) as [[r s2] t2].
    unfold trace, final, grows in *. simpl in *.
    apply elem_of_app in Hev as [Hev|Hev]; [|by apply IH].
    by apply Hgrows, Hhead.
  - unfold trace, final in *. simpl in *. by apply Hhead.
Qed.

Lemma calls_about_delivery kind id t :
  (kind = is_append ∨ kind = is_post) →
  calls_about kind id t ≠ [] →
  ∃ ev, ev ∈ t ∧ is_append ev || is_post ev = true ∧ about ev = Some id.
Proof.
  intros Hkind. induction t as [|ev t IH]; [done|].
  unfold calls_about. simpl.
  destruct (kind ev && bool_decide (about ev = Some id)) eqn:Hev.
  - intros _. apply andb_true_iff in Hev as [Hk Hid].
    apply bool_decide_eq_true in Hid.
    exists ev. split; [by apply elem_of_cons; left|]. split; [|done].
    destruct Hkind as [-> | ->]; rewrite Hk; [done|by rewrite orb_true_r].
  - intros Hrest. destruct (IH Hrest) as (ev' & ? & ? & ?).
    exists ev'. split; [by apply elem_of_cons; right|done].
Qed.

(** What one invocation from outside adds to the deliveries about [id]. *)
Lemma exec_deliveries kind w op s id :
  (kind = is_append ∨ kind = is_post) →
  (op = ProcessMessages ∨ op = SetupGoogleSheetHeaders) →
  List.length (calls_about kind id (exec_trace CONFIG w op s)) ≤ 1
  ∧ (calls_about kind id (exec_trace CONFIG w op s) ≠ [] →
     id ∈ processedMessageIds (exec CONFIG w op s))
  ∧ (id ∈ processedMessageIds s →
     calls_about kind id (exec_trace CONFIG w op s) = []).
Proof.
  intros Hkind [-> | ->]; simpl.
  - assert (∀ ev, ev ∈ trace (processMessages CONFIG w s) →
                  about ev = Some id →
                  ev ∈ trace (for_of (fetched CONFIG w s)
                                (loop_body CONFIG w) s)) as Hloop_only.
    { intros ev. rewrite processMessages_eq. cbv zeta.
      assert (∀ ev', ev' ∈ trace (fetchOpenPhoneMessages CONFIG w s) →
                     about ev' = None) as Hfetch.
      { rewrite fetchOpenPhoneMessages_eq.
        destruct (provided (OPENPHONE_API_KEY CONFIG));
          [destruct (openphone_get _ _)|]; unfold trace; simpl;
          intros ev' Hev'; set_unfold; destruct_or?; by subst. }
      destruct (for_of _ _ s) as [[[[]|e] s1] t]; unfold trace in *;
        simpl in *; intros Hev Habout; set_unfold in Hev; destruct_or!;
        subst; try done; apply Hfetch in Hev; congruence. }
    assert (processedMessageIds
              (final (for_of (fetched CONFIG w s) (loop_body CONFIG w) s))
            = processedMessageIds (final (processMessages CONFIG w s)))
      as Hsame.
    { rewrite processMessages_eq. cbv zeta.
      by destruct (for_of _ _ s) as [[[[]|e] s1] t]. }
    split; [|split].
    + destruct Hkind as [-> | ->];
        by destruct (processMessages_calls_once CONFIG w s id) as (? & ? & ?).
    + intros Hsome.
      destruct (calls_about_delivery kind id _ Hkind Hsome)
        as (ev & Hev & Hdelivery & Habout).
      rewrite <- Hsame.
      eapply for_of_delivery_marks; [by apply Hloop_only|done|done].
    + intros Hin. apply calls_about_none. intros ev Hev Habout.
      by destruct (for_of_about CONFIG w _ s ev id
                     (Hloop_only ev Hev Habout) Habout).
  - rewrite setupGoogleSheetHeaders_final.
    assert (calls_about kind id (trace (setupGoogleSheetHeaders CONFIG w s))
            = []) as ->.
    { apply calls_about_none. unfold setupGoogleSheetHeaders. run_unfold.
      destruct (sheets s); simpl;
        [destruct (provided (GOOGLE_SHEET_ID CONFIG)); simpl;
         [destruct (sheets_update _ _)|]|];
        unfold trace; simpl; intros ev Hev; set_unfold; destruct_or?;
        by subst. }
    simpl. split; [lia|]. by split.
Qed.

Lemma lifetime_deliveries kind calls s id :
  (kind = is_append ∨ kind = is_post) →
  Forall (λ call, call.2 = ProcessMessages
                  ∨ call.2 = SetupGoogleSheetHeaders) calls →
  List.length (calls_about kind id (lifetime_trace CONFIG calls s)) ≤ 1
  ∧ (id ∈ processedMessageIds s →
     calls_about kind id (lifetime_trace CONFIG calls s) = []).
Proof.
  intros Hkind Hcalls. revert s.
  induction Hcalls as [|[w op] rest Hop _ IH]; intros s; [simpl; by split; [lia|]|].
  simpl in Hop. cbn [lifetime_trace].
  destruct (exec_deliveries kind w op s id Hkind Hop)
    as (Hle & Hmarks & Hdone).
  destruct (IH (exec CONFIG w op s)) as [IHle IHdone].
  rewrite calls_about_app, length_app. split.
  - destruct (calls_about kind id (exec_trace CONFIG w op s)) as [|ev t] eqn:Hnow.
    + simpl. lia.
    + rewrite IHdone by (by apply Hmarks). simpl in *. lia.
  - intros Hin. rewrite (Hdone Hin), IHdone; [done|].
    by apply (exec_grows CONFIG w op s).
Qed.

(** X17. Over any sequence of runs that do not overlap (each one runs to
    its end, completed or aborted, before the next is started), however
    many there are and however they end, there is at most one ledger
    append and at most one Slack post about any message id: a message that
    reached the sinks is marked in the same pass of the loop, and a marked
    message never reaches them again. (The classifier has no such bound: a
    run aborted at a message asks about it again the next time. Runs that
    overlap in time are not covered: nothing in the service keeps a second
    run from reading the set before the first has marked the message.) *)
Theorem deliveries_at_most_once_without_overlap calls s id :
  Forall (λ call, call.2 = ProcessMessages
                  ∨ call.2 = SetupGoogleSheetHeaders) calls →
  List.length (calls_about is_append id (lifetime_trace CONFIG calls s)) ≤ 1
  ∧ List.length (calls_about is_post id (lifetime_trace CONFIG calls s)) ≤ 1.
Proof.
  intros Hcalls. split.
  - by destruct (lifetime_deliveries is_append calls s id (or_introl eq_refl)
                   Hcalls).
  - by destruct (lifetime_deliveries is_post calls s id (or_intror eq_refl)
                   Hcalls).
Qed.

End Deliveries.

Lemma deliveries_at_most_once_without_overlap_witness :
  let w := world (FetchResolves (Some [jane; jane])) (GptParsed jane_order)
             true true in
  let calls := [(w, ProcessMessages); (w, SetupGoogleSheetHeaders);
                (w, ProcessMessages)] in
  Forall (λ call, call.2 = ProcessMessages
                  ∨ call.2 = SetupGoogleSheetHeaders) calls
  ∧ (List.length
       (calls_about is_append "AC1" (lifetime_trace config_full calls fresh))
     ≤ 1)%nat
  ∧ (List.length
       (calls_about is_post "AC1" (lifetime_trace config_full calls fresh))
     ≤ 1)%nat.
Proof.
  intros w calls.
  assert (Forall (λ call, call.2 = ProcessMessages
                          ∨ call.2 = SetupGoogleSheetHeaders) calls)
    as Hcalls.
  { repeat (constructor; [simpl; auto|]). constructor. }
  split; [exact Hcalls|].
  exact (deliveries_at_most_once_without_overlap config_full calls fresh
           "AC1" Hcalls).
Defined.

(** * From boot to the first run *)

(** X18. A new service has processed nothing, has a Sheets client exactly
    when the credentials are set and the client could be built, and its
    first run asks the provider for the messages created after the moment
    the module was loaded: what was sent before the process started is
    never asked for. *)
Theorem first_run_after_boot CONFIG w0 w :
  provided (OPENPHONE_API_KEY CONFIG) = true →
  let s := (boot CONFIG w0).1 in
  processedMessageIds s = ∅
  ∧ sheets s =
      provided (GOOGLE_SHEETS_CREDENTIALS CONFIG)
      && sheets_client w0 (env_string (GOOGLE_SHEETS_CREDENTIALS CONFIG))
  ∧ List.filter is_fetch (trace (processMessages CONFIG w s))
      = [GetMessages (now_boot w0)].
Proof.
  intros Hkey s.
  assert (processedMessageIds s = ∅
          ∧ sheets s =
              provided (GOOGLE_SHEETS_CREDENTIALS CONFIG)
              && sheets_client w0
                   (env_string (GOOGLE_SHEETS_CREDENTIALS CONFIG))
          ∧ lastProcessedTime s = now_boot w0) as (Hids & Hsheets & Htime).
  { subst s. unfold boot, initializeGoogleSheets. run_unfold.
    destruct (provided (GOOGLE_SHEETS_CREDENTIALS CONFIG)); simpl; [|done].
    by destruct (sheets_client _ _). }
  split; [done|]. split; [done|].
  by rewrite processMessages_fetches, Hkey, Htime.
Qed.

Lemma first_run_after_boot_witness :
  let w := world (FetchResolves (Some [jane])) (GptParsed jane_order)
             true true in
  provided (OPENPHONE_API_KEY config_full) = true
  ∧ let s := (boot config_full w).1 in
    processedMessageIds s = ∅
    ∧ sheets s =
        provided (GOOGLE_SHEETS_CREDENTIALS config_full)
        && sheets_client w (env_string (GOOGLE_SHEETS_CREDENTIALS config_full))
    ∧ List.filter is_fetch (trace (processMessages config_full w s))
        = [GetMessages (now_boot w)].
Proof.
  intros w. split; [reflexivity|].
  exact (first_run_after_boot config_full w w eq_refl).
Defined.

(** * Slack and the urgency *)

Lemma slack_message_urgency w orderData message payload :
  slack_message w orderData message = Js.Ok payload →
  ∃ text,
    Js.get orderData "urgency" = Js.Ok (Js.Str text)
    ∧ urgency payload = String_toUpperCase w text
    ∧ emoji payload = urgencyEmoji text.
Proof.
  unfold slack_message. intros Hmsg.
  unfold mbind, mret, Js.exc_bind, Js.exc_ret, Js.bind in Hmsg.
  destruct (Js.get orderData "urgency") as [value|]; [|done].
  destruct value; simpl in Hmsg;
    repeat (case_match; try discriminate); simplify_eq; eauto.
Qed.

(** X19. Slack is only ever posted a judgment whose urgency is a string.
    For any other judgment (the urgency missing, a number, a list)
    [sendSlackNotification] returns [false] after one console line and
    without a request, whatever the other fields are; the ledger has no
    such requirement. *)
Theorem slack_needs_string_urgency CONFIG w orderData message s :
  (∀ text, Js.get orderData "urgency" ≠ Js.Ok (Js.Str text)) →
  ∃ line,
    sendSlackNotification CONFIG w orderData message s
      = (Js.Ok false, s, [Console line]).
Proof.
  intros Hurgency. rewrite sendSlackNotification_eq. cbv zeta.
  destruct (provided _); [|eauto].
  destruct (slack_message w orderData message) as [payload|e] eqn:Hmsg;
    [|eauto].
  destruct (slack_message_urgency _ _ _ _ Hmsg) as (text & Hget & _).
  by destruct (Hurgency text).
Qed.

Lemma slack_needs_string_urgency_witness :
  let w := world (FetchResolves (Some [jane])) (GptParsed jane_order)
             true true in
  let judgment :=
    Js.Obj [ ("isOrder", Js.Bool true);
             ("customerName", Js.Str "Jane");
             ("customerPhone", Js.Str "555-1234");
             ("products", Js.Arr [Js.Str "oysters"]);
             ("quantities", Js.Arr [Js.Str "2 dozen"]);
             ("totalAmount", Js.Str "TBD");
             ("specialRequests", Js.Str "") ] in
  (∀ text, Js.get judgment "urgency" ≠ Js.Ok (Js.Str text))
  ∧ succeeded (logOrderToSheet config_full w judgment jane fresh) = true
  ∧ ∃ line,
      sendSlackNotification config_full w judgment jane fresh
        = (Js.Ok false, fresh, [Console line]).
Proof.
  intros w judgment.
  assert (∀ text, Js.get judgment "urgency" ≠ Js.Ok (Js.Str text))
    as Hurgency by (intros text; discriminate).
  split; [exact Hurgency|]. split; [reflexivity|].
  exact (slack_needs_string_urgency config_full w judgment jane fresh
           Hurgency).
Defined.
